(** * Room lifecycle of [app/room_model.py]

    A shallow embedding of the room model: the two tables [room] and
    [room_user], the SQL statements the module sends, the transaction opened
    by [engine.begin()] and the six exposed operations, followed by the
    properties of the room lifecycle.

    Conventions.
    - Python [int] and MySQL [bigint] are [Z]; no operation here comes near
      the 64-bit bound of the columns.
    - A Python reference that may be [None] is an [option].
    - Code that runs on a connection is a computation in the monad [M]: it
      threads the connection (the uncommitted contents of the tables) and
      either returns a value or raises an exception.
    - Every [conn.execute] is a point where the storage may fail.  The
      failures of one call are given by a plan, one boolean per statement in
      execution order ([true]: this statement raises [OperationalError] and
      changes nothing); statements beyond the end of the plan do not fail.
      A failed statement leaves the effects of the earlier statements of the
      transaction in place, as a lock-wait timeout or a constraint violation
      does.  Opening and committing the transaction do not fail.
    - Calls run one after the other; interleavings of concurrent
      transactions are outside this model. *)

From Stdlib Require Import ZArith List Bool Lia.
Import ListNotations.
Local Open Scope Z_scope.

(** ** Constants and enumerations *)

Definition max_user_count : Z := 4.

Inductive LiveDifficulty : Set := normal | hard.

Definition int_of_LiveDifficulty (d : LiveDifficulty) : Z :=
  match d with normal => 1 | hard => 2 end.

Inductive JoinRoomResult : Set := Ok | RoomFull | Disbanded | OhterError.

Definition int_of_JoinRoomResult (r : JoinRoomResult) : Z :=
  match r with Ok => 1 | RoomFull => 2 | Disbanded => 3 | OhterError => 4 end.

Inductive WaitRoomStatus : Set := Waiting | LiveStart | Dissolution.

Definition int_of_WaitRoomStatus (s : WaitRoomStatus) : Z :=
  match s with Waiting => 1 | LiveStart => 2 | Dissolution => 3 end.

(** [WaitRoomStatus(z)]: the member with value [z], if any. *)
Definition WaitRoomStatus_of_int (z : Z) : option WaitRoomStatus :=
  if z =? 1 then Some Waiting
  else if z =? 2 then Some LiveStart
  else if z =? 3 then Some Dissolution
  else None.

(** ** Exceptions and the connection monad *)

Inductive exn : Set :=
| NoResultFound          (* Result.one() on an empty result *)
| MultipleResultsFound   (* Result.one() on more than one row *)
| IntegrityError         (* duplicate primary key *)
| OperationalError       (* storage failure of a statement *)
| AttributeError         (* attribute access on None *)
| ValidationError.       (* pydantic validation *)

Inductive outcome (A : Type) : Type :=
| Return (a : A)
| Raise (e : exn).
Arguments Return {A} a.
Arguments Raise {A} e.

(** ** Tables *)

Module RoomRow.
(** A row of table [room].  [status] is [NOT NULL DEFAULT 1]. *)
Record t : Set := mk {
  room_id : Z;
  live_id : Z;
  joined_user_count : Z;
  status : Z
}.
End RoomRow.

Module RoomUserRow.
(** A row of table [room_user], primary key ([room_id], [user_id]).  The
    five [judge_count_*] columns are never written nor read by the
    operations below and are left out. *)
Record t : Set := mk {
  room_id : Z;
  user_id : Z;
  live_difficulty : Z;
  is_host : bool
}.
End RoomUserRow.

(** The stored state: both tables in storage order and the next
    [AUTO_INCREMENT] value of [room.room_id]. *)
Record DB : Set := mkDB {
  room : list RoomRow.t;
  room_user : list RoomUserRow.t;
  auto_increment : Z
}.

Definition empty_db : DB := mkDB [] [] 1.

(** A connection inside a transaction: the tables as the transaction sees
    them and the failures still to come. *)
Record Connection : Set := mkConn {
  conn_db : DB;
  conn_faults : list bool
}.

Definition M (A : Type) : Type := Connection -> outcome A * Connection.

Definition ret {A} (a : A) : M A := fun c => (Return a, c).

Definition raise {A} (e : exn) : M A := fun c => (Raise e, c).

Definition bind {A B} (m : M A) (k : A -> M B) : M B :=
  fun c =>
    match m c with
    | (Return a, c') => k a c'
    | (Raise e, c') => (Raise e, c')
    end.

(** [try: body except Exception as e: handler e] *)
Definition try_except {A} (body : M A) (handler : exn -> M A) : M A :=
  fun c =>
    match body c with
    | (Return a, c') => (Return a, c')
    | (Raise e, c') => handler e c'
    end.

Declare Scope conn_scope.
Delimit Scope conn_scope with conn.
Notation "x <- m ;; k" := (bind m (fun x => k))
  (at level 61, m at next level, right associativity) : conn_scope.
Notation "m ;;; k" := (bind m (fun _ => k))
  (at level 61, right associativity) : conn_scope.
Local Open Scope conn_scope.

(** [conn.execute(text(query), params)]: the statement is a function on the
    tables; the next entry of the plan decides whether it fails instead. *)
Definition execute {A} (stmt : DB -> outcome A * DB) : M A :=
  fun c =>
    match conn_faults c with
    | true :: fs => (Raise OperationalError, mkConn (conn_db c) fs)
    | false :: fs =>
        let (r, d) := stmt (conn_db c) in (r, mkConn d fs)
    | [] =>
        let (r, d) := stmt (conn_db c) in (r, mkConn d [])
    end.

(** [Result.one()]: exactly one row, or an exception.  It never yields
    [None]. *)
Definition one {A} (rows : list A) : M (option A) :=
  match rows with
  | [] => raise NoResultFound
  | [row] => ret (Some row)
  | _ :: _ :: _ => raise MultipleResultsFound
  end.

(** [row.attr] on a reference that may be [None]. *)
Definition getattr {A B} (row : option A) (attr : A -> B) : M B :=
  match row with
  | Some r => ret (attr r)
  | None => raise AttributeError
  end.

(** [with engine.begin() as conn: body]: commit when the block is left
    normally (a [return] included), roll back when an exception leaves it. *)
Definition engine_begin {A} (body : M A) (plan : list bool) (d : DB)
  : outcome A * DB :=
  match body (mkConn d plan) with
  | (Return a, c) => (Return a, conn_db c)
  | (Raise e, _) => (Raise e, d)
  end.

(** ** SQL statements *)

Definition room_where_room_id (d : DB) (room_id : Z) : list RoomRow.t :=
  filter (fun r => RoomRow.room_id r =? room_id) (room d).

Definition room_where_live_id (d : DB) (live_id : Z) : list RoomRow.t :=
  filter (fun r => RoomRow.live_id r =? live_id) (room d).

Definition room_user_where_room_id (d : DB) (room_id : Z)
  : list RoomUserRow.t :=
  filter (fun u => RoomUserRow.room_id u =? room_id) (room_user d).

(** UPDATE `room` SET ... WHERE `room_id`=:room_id, on the rows of the
    table: [upd] on every row of that id, the others untouched.  No row of
    that id is no error. *)
Definition update_where (upd : RoomRow.t -> RoomRow.t) (room_id : Z)
  (l : list RoomRow.t) : list RoomRow.t :=
  map (fun r => if RoomRow.room_id r =? room_id then upd r else r) l.

Definition set_joined_user_count (joined_user_count : Z) (r : RoomRow.t)
  : RoomRow.t :=
  RoomRow.mk (RoomRow.room_id r) (RoomRow.live_id r) joined_user_count
             (RoomRow.status r).

Definition set_status (status : Z) (r : RoomRow.t) : RoomRow.t :=
  RoomRow.mk (RoomRow.room_id r) (RoomRow.live_id r)
             (RoomRow.joined_user_count r) status.

(** INSERT INTO `room` SET `live_id`=:live_id,
    `joined_user_count`=:joined_user_count; the result is [lastrowid]. *)
Definition sql_insert_room (live_id joined_user_count : Z) (d : DB)
  : outcome Z * DB :=
  let id := auto_increment d in
  (Return id,
   mkDB (room d ++ [RoomRow.mk id live_id joined_user_count 1])
        (room_user d) (id + 1)).

(** SELECT joined_user_count FROM `room` WHERE `room_id`=:room_id *)
Definition sql_select_joined_user_count (room_id : Z) (d : DB)
  : outcome (list Z) * DB :=
  (Return (map RoomRow.joined_user_count (room_where_room_id d room_id)), d).

(** UPDATE `room` SET `joined_user_count`=:joined_user_count
    WHERE `room_id`=:room_id *)
Definition sql_update_joined_user_count (joined_user_count room_id : Z)
  (d : DB) : outcome unit * DB :=
  (Return tt,
   mkDB (update_where (set_joined_user_count joined_user_count) room_id
                      (room d))
        (room_user d) (auto_increment d)).

(** Is ([room_id], [user_id]) already a key of [room_user]? *)
Definition room_user_has_key (d : DB) (room_id user_id : Z) : bool :=
  existsb (fun u => (RoomUserRow.room_id u =? room_id)
                    && (RoomUserRow.user_id u =? user_id)) (room_user d).

(** INSERT INTO `room_user` SET `room_id`=:room_id, `user_id`=:user_id,
    `live_difficulty`=:live_difficulty, `is_host`=:is_host *)
Definition sql_insert_room_user (room_id user_id live_difficulty : Z)
  (is_host : bool) (d : DB) : outcome unit * DB :=
  if room_user_has_key d room_id user_id
  then (Raise IntegrityError, d)
  else (Return tt,
        mkDB (room d)
             (room_user d
              ++ [RoomUserRow.mk room_id user_id live_difficulty is_host])
             (auto_increment d)).

(** SELECT `room_id`, `live_id`, `joined_user_count` FROM `room`
    WHERE `room_id`=:room_id *)
Definition sql_select_room_info_by_room_id (room_id : Z) (d : DB)
  : outcome (list RoomRow.t) * DB :=
  (Return (room_where_room_id d room_id), d).

(** SELECT `room_id`, `live_id`, `joined_user_count` FROM `room`
    WHERE `live_id`=:live_id *)
Definition sql_select_room_info_by_live_id (live_id : Z) (d : DB)
  : outcome (list RoomRow.t) * DB :=
  (Return (room_where_live_id d live_id), d).

(** SELECT `room_id`, `status` FROM `room` WHERE `room_id`=:room_id *)
Definition sql_select_room_status (room_id : Z) (d : DB)
  : outcome (list RoomRow.t) * DB :=
  (Return (room_where_room_id d room_id), d).

(** SELECT `room_id`, `user_id`, `live_difficulty`, `is_host`
    FROM `room_user` WHERE `room_id`=:room_id *)
Definition sql_select_room_users (room_id : Z) (d : DB)
  : outcome (list RoomUserRow.t) * DB :=
  (Return (room_user_where_room_id d room_id), d).

(** UPDATE `room` SET `status`=:status WHERE `room_id`=:room_id *)
Definition sql_update_status (status room_id : Z) (d : DB)
  : outcome unit * DB :=
  (Return tt,
   mkDB (update_where (set_status status) room_id (room d))
        (room_user d) (auto_increment d)).

(** ** Pydantic models *)

Module RoomStatus.
Record t : Set := mk {
  room_id : Z;
  status : WaitRoomStatus
}.

(** [RoomStatus.from_orm(row)]; the stored integer must be a member of
    [WaitRoomStatus]. *)
Definition from_orm (row : option RoomRow.t) : M t :=
  match row with
  | None => raise ValidationError
  | Some r =>
      match WaitRoomStatus_of_int (RoomRow.status r) with
      | Some s => ret (mk (RoomRow.room_id r) s)
      | None => raise ValidationError
      end
  end.
End RoomStatus.

Module RoomInfo.
(** The default of field [max_user_count]: the module constant. *)
Definition max_user_count_default : Z := max_user_count.

Record t : Set := mk {
  room_id : Z;
  live_id : Z;
  joined_user_count : Z;
  max_user_count : Z
}.

(** [RoomInfo.from_orm(row)]; the row has no [max_user_count], the field
    takes its default. *)
Definition from_orm (r : RoomRow.t) : t :=
  mk (RoomRow.room_id r) (RoomRow.live_id r) (RoomRow.joined_user_count r)
     max_user_count_default.
End RoomInfo.

Module RoomUser.
Record t : Set := mk {
  room_id : Z;
  user_id : Z;
  live_difficulty : Z;
  is_me : bool;
  is_host : bool
}.

Definition from_orm (u : RoomUserRow.t) : t :=
  mk (RoomUserRow.room_id u) (RoomUserRow.user_id u)
     (RoomUserRow.live_difficulty u) false (RoomUserRow.is_host u).

Definition set_is_me (u : t) (b : bool) : t :=
  mk (room_id u) (user_id u) (live_difficulty u) b (is_host u).
End RoomUser.

(** ** Operations *)

Definition create_room (live_id : Z) : list bool -> DB -> outcome Z * DB :=
  engine_begin
    (room_id <- execute (sql_insert_room live_id 0) ;;
     ret room_id).

Definition _update_room_user_count (room_id offset : Z) : M unit :=
  result_select <- execute (sql_select_joined_user_count room_id) ;;
  row <- one result_select ;;
  joined_user_count <- getattr row (fun n => n) ;;
  let joined_user_count := joined_user_count + offset in
  execute (sql_update_joined_user_count joined_user_count room_id) ;;;
  ret tt.

Definition _create_room_user (room_id user_id : Z)
  (live_difficulty : LiveDifficulty) (is_host : bool) : M unit :=
  execute (sql_insert_room_user room_id user_id
             (int_of_LiveDifficulty live_difficulty) is_host).

Definition _get_room_info_by_id (room_id : Z) : M (option RoomInfo.t) :=
  result <- execute (sql_select_room_info_by_room_id room_id) ;;
  row <- one result ;;
  match row with
  | None => ret None
  | Some r => ret (Some (RoomInfo.from_orm r))
  end.

Definition join_room (user_id room_id : Z) (live_difficulty : LiveDifficulty)
  (is_host : bool) : list bool -> DB -> outcome JoinRoomResult * DB :=
  engine_begin
    (try_except
       (room_info <- _get_room_info_by_id room_id ;;
        match room_info with
        | None => ret Disbanded
        | Some room_info =>
            if RoomInfo.joined_user_count room_info
               >=? RoomInfo.max_user_count room_info
            then ret RoomFull
            else
              _create_room_user room_id user_id live_difficulty is_host ;;;
              _update_room_user_count room_id 1 ;;;
              ret Ok
        end)
       (fun e => ret OhterError)).

Definition _get_rooms_by_live_id (live_id : Z) : M (list RoomInfo.t) :=
  result <- execute (sql_select_room_info_by_live_id live_id) ;;
  ret (map RoomInfo.from_orm result).

Definition get_rooms_by_live_id (live_id : Z)
  : list bool -> DB -> outcome (list RoomInfo.t) * DB :=
  engine_begin (_get_rooms_by_live_id live_id).

Definition _get_room_status (room_id : Z) : M RoomStatus.t :=
  result <- execute (sql_select_room_status room_id) ;;
  row <- one result ;;
  RoomStatus.from_orm row.

Definition get_room_status (room_id : Z)
  : list bool -> DB -> outcome RoomStatus.t * DB :=
  engine_begin (_get_room_status room_id).

Definition _get_room_users (room_id user_id_req : Z) : M (list RoomUser.t) :=
  result <- execute (sql_select_room_users room_id) ;;
  ret (map (fun row =>
              let room_user := RoomUser.from_orm row in
              if RoomUser.user_id room_user =? user_id_req
              then RoomUser.set_is_me room_user true
              else room_user) result).

Definition get_room_users (room_id user_id_req : Z)
  : list bool -> DB -> outcome (list RoomUser.t) * DB :=
  engine_begin (_get_room_users room_id user_id_req).

Definition start_room (room_id : Z) : list bool -> DB -> outcome unit * DB :=
  engine_begin
    (execute (sql_update_status (int_of_WaitRoomStatus LiveStart) room_id) ;;;
     ret tt).

(** ** Reachable states *)

(** One request to the module. *)
Inductive call : Set :=
| call_create_room (live_id : Z)
| call_join_room (user_id room_id : Z) (live_difficulty : LiveDifficulty)
                 (is_host : bool)
| call_get_rooms_by_live_id (live_id : Z)
| call_get_room_status (room_id : Z)
| call_get_room_users (room_id user_id_req : Z)
| call_start_room (room_id : Z).

(** The stored state after a call that runs under the failure plan [plan]. *)
Definition run (c : call) (plan : list bool) (d : DB) : DB :=
  match c with
  | call_create_room live_id => snd (create_room live_id plan d)
  | call_join_room user_id room_id live_difficulty is_host =>
      snd (join_room user_id room_id live_difficulty is_host plan d)
  | call_get_rooms_by_live_id live_id => snd (get_rooms_by_live_id live_id plan d)
  | call_get_room_status room_id => snd (get_room_status room_id plan d)
  | call_get_room_users room_id user_id_req =>
      snd (get_room_users room_id user_id_req plan d)
  | call_start_room room_id => snd (start_room room_id plan d)
  end.

(** States reached from the empty store by any sequence of calls, each under
    any failure plan. *)
Inductive reachable : DB -> Prop :=
| reachable_empty : reachable empty_db
| reachable_run c plan d : reachable d -> reachable (run c plan d).

(** The same, when no statement ever fails. *)
Inductive reachable_without_failure : DB -> Prop :=
| rwf_empty : reachable_without_failure empty_db
| rwf_run c d :
    reachable_without_failure d -> reachable_without_failure (run c [] d).

(** Number of membership rows of a room. *)
Definition room_user_count (d : DB) (room_id : Z) : Z :=
  Z.of_nat (length (room_user_where_room_id d room_id)).

(** [room.room_id] is a key. *)
Definition room_id_unique (d : DB) : Prop :=
  NoDup (map RoomRow.room_id (room d)).

(** What the operations keep true of the store, failures included: ids of
    rooms are distinct and below the next generated id, counts are within
    the capacity, the status is one of the two values ever written, and
    membership rows carry ids that have been generated. *)
Record store_invariant (d : DB) : Prop := mk_store_invariant {
  inv_unique : room_id_unique d;
  inv_fresh : forall r, In r (room d) -> RoomRow.room_id r < auto_increment d;
  inv_count : forall r, In r (room d) ->
                0 <= RoomRow.joined_user_count r <= max_user_count;
  inv_status : forall r, In r (room d) ->
                 RoomRow.status r = int_of_WaitRoomStatus Waiting
                 \/ RoomRow.status r = int_of_WaitRoomStatus LiveStart;
  inv_member : forall u, In u (room_user d) ->
                 RoomUserRow.room_id u < auto_increment d
}.

(** The count of every room is the number of its membership rows. *)
Definition count_consistent (d : DB) : Prop :=
  forall r, In r (room d) ->
    RoomRow.joined_user_count r = room_user_count d (RoomRow.room_id r).

(** The first [n] statements of a call do not fail. *)
Definition no_failure (n : nat) (plan : list bool) : Prop :=
  forallb negb (firstn n plan) = true.

(** The membership row that [join_room] inserts. *)
Definition new_room_user (user_id room_id : Z)
  (live_difficulty : LiveDifficulty) (is_host : bool) : RoomUserRow.t :=
  RoomUserRow.mk room_id user_id (int_of_LiveDifficulty live_difficulty)
                 is_host.

(** The store with the membership row inserted and the count untouched. *)
Definition db_row_only (d : DB) (u : RoomUserRow.t) : DB :=
  mkDB (room d) (room_user d ++ [u]) (auto_increment d).

(** The store with the membership row inserted and the count of its room
    set to [n]. *)
Definition db_row_and_count (d : DB) (u : RoomUserRow.t) (n : Z) : DB :=
  mkDB (update_where (set_joined_user_count n) (RoomUserRow.room_id u)
                     (room d))
       (room_user d ++ [u]) (auto_increment d).

(** The store with the status of one room set. *)
Definition db_status (d : DB) (room_id status : Z) : DB :=
  mkDB (update_where (set_status status) room_id (room d))
       (room_user d) (auto_increment d).

(** [join_room] for each user in turn, nothing failing: the answers and the
    final store. *)
Fixpoint join_each (users : list Z) (room_id : Z) (d : DB)
  : list (outcome JoinRoomResult) * DB :=
  match users with
  | [] => ([], d)
  | user_id :: users =>
      let (res, d') := join_room user_id room_id normal false [] d in
      let (rest, d'') := join_each users room_id d' in
      (res :: rest, d'')
  end.

(** States of the scenarios below: one fresh room; that room after a join
    whose last statement failed; that room after four joins. *)
Definition db_one_room : DB := mkDB [RoomRow.mk 1 100 0 1] [] 2.

Definition db_partial : DB :=
  mkDB [RoomRow.mk 1 100 0 1] [RoomUserRow.mk 1 1 2 true] 2.

Definition db_full_room : DB :=
  mkDB [RoomRow.mk 1 100 4 1]
       [RoomUserRow.mk 1 1 1 false; RoomUserRow.mk 1 2 1 false;
        RoomUserRow.mk 1 3 1 false; RoomUserRow.mk 1 4 1 false] 2.

(** ** Further notions for the properties of the other operations *)

(** The primary key of a membership row. *)
Definition room_user_key (u : RoomUserRow.t) : Z * Z :=
  (RoomUserRow.room_id u, RoomUserRow.user_id u).

(** ([room_id], [user_id]) is a key of [room_user]. *)
Definition room_user_key_unique (d : DB) : Prop :=
  NoDup (map room_user_key (room_user d)).

(** Every membership row carries the id of a stored room. *)
Definition room_user_references_room (d : DB) : Prop :=
  forall u, In u (room_user d) ->
    In (RoomUserRow.room_id u) (map RoomRow.room_id (room d)).

(** The five ways in which one call can leave the store, whatever fails:
    untouched, one room appended, one membership row appended with or
    without the count of its room raised, one status written. *)
Inductive step_shape (d : DB) : DB -> Prop :=
| shape_same : step_shape d d
| shape_room live_id :
    step_shape d
      (mkDB (room d ++ [RoomRow.mk (auto_increment d) live_id 0 1])
            (room_user d) (auto_increment d + 1))
| shape_row_only u r :
    room_where_room_id d (RoomUserRow.room_id u) = [r] ->
    RoomRow.joined_user_count r < max_user_count ->
    room_user_has_key d (RoomUserRow.room_id u) (RoomUserRow.user_id u)
    = false ->
    step_shape d (db_row_only d u)
| shape_row_and_count u r :
    room_where_room_id d (RoomUserRow.room_id u) = [r] ->
    RoomRow.joined_user_count r < max_user_count ->
    room_user_has_key d (RoomUserRow.room_id u) (RoomUserRow.user_id u)
    = false ->
    step_shape d (db_row_and_count d u (RoomRow.joined_user_count r + 1))
| shape_status room_id :
    step_shape d (db_status d room_id (int_of_WaitRoomStatus LiveStart)).

(** The answer is [Ok]. *)
Definition is_Ok (res : outcome JoinRoomResult) : bool :=
  match res with Return Ok => true | _ => false end.

(** What [get_room_users] makes of one row for the requesting user. *)
Definition room_user_entry (user_id_req : Z) (row : RoomUserRow.t)
  : RoomUser.t :=
  RoomUser.mk (RoomUserRow.room_id row) (RoomUserRow.user_id row)
              (RoomUserRow.live_difficulty row)
              (RoomUserRow.user_id row =? user_id_req)
              (RoomUserRow.is_host row).

(** The answer of [join_room] as a table of what it looks at: the rows
    that the id selects, whether the user is already a member, and which of
    the four statements fail. *)
Definition join_room_answer (rows : list RoomRow.t) (member : bool)
  (plan : list bool) : JoinRoomResult :=
  if nth 0 plan false then OhterError
  else
    match rows with
    | [r] =>
        if RoomRow.joined_user_count r >=? max_user_count then RoomFull
        else if nth 1 plan false then OhterError
        else if member then OhterError
        else if nth 2 plan false then OhterError
        else if nth 3 plan false then OhterError
        else Ok
    | _ => OhterError
    end.

(** ** Facts about the tables *)

Section Tables.

Lemma room_where_room_id_nil (d : DB) (room_id : Z) :
  room_where_room_id d room_id = [] <->
  (forall r, In r (room d) -> RoomRow.room_id r <> room_id).
Proof.
  unfold room_where_room_id. split.
  - intros E r Hr Heq.
    assert (Hin : In r (filter (fun r => RoomRow.room_id r =? room_id) (room d))).
    { apply filter_In. split; [exact Hr | now apply Z.eqb_eq]. }
    rewrite E in Hin. exact Hin.
  - intros H. induction (room d) as [|r l IH]; [reflexivity|].
    cbn. destruct (Z.eqb_spec (RoomRow.room_id r) room_id) as [Heq|_].
    + exfalso. apply (H r); [now left | exact Heq].
    + apply IH. intros r' Hr'. apply H. now right.
Qed.

(** On a table whose ids are distinct, a stored row is the one row its id
    selects. *)
Lemma filter_room_id_unique (l : list RoomRow.t) (r : RoomRow.t) :
  NoDup (map RoomRow.room_id l) -> In r l ->
  filter (fun r' => RoomRow.room_id r' =? RoomRow.room_id r) l = [r].
Proof.
  induction l as [|a l IH]; intros Hnd Hin; [contradiction|].
  cbn in Hnd. inversion Hnd as [|x xs Hnotin Hnd']; subst.
  cbn. destruct Hin as [->|Hin].
  - rewrite Z.eqb_refl. f_equal.
    clear IH Hnd Hnd'. induction l as [|b l IH]; [reflexivity|].
    cbn. destruct (Z.eqb_spec (RoomRow.room_id b) (RoomRow.room_id r)) as [E|_].
    + exfalso. apply Hnotin. left. exact E.
    + apply IH. intros H. apply Hnotin. now right.
  - destruct (Z.eqb_spec (RoomRow.room_id a) (RoomRow.room_id r)) as [E|_].
    + exfalso. apply Hnotin. rewrite E. now apply in_map.
    + now apply IH.
Qed.

Lemma room_where_room_id_unique (d : DB) (r : RoomRow.t) :
  room_id_unique d -> In r (room d) ->
  room_where_room_id d (RoomRow.room_id r) = [r].
Proof. intros. now apply filter_room_id_unique. Qed.

Lemma room_where_room_id_In (d : DB) (room_id : Z) (r : RoomRow.t) :
  In r (room_where_room_id d room_id) ->
  In r (room d) /\ RoomRow.room_id r = room_id.
Proof.
  unfold room_where_room_id. intros H. apply filter_In in H.
  destruct H as [H1 H2]. split; [exact H1 | now apply Z.eqb_eq].
Qed.

Variable upd : RoomRow.t -> RoomRow.t.
Variable room_id : Z.
Hypothesis upd_room_id : forall r, RoomRow.room_id (upd r) = RoomRow.room_id r.

Lemma update_where_ids (l : list RoomRow.t) :
  map RoomRow.room_id (update_where upd room_id l) = map RoomRow.room_id l.
Proof.
  unfold update_where. rewrite map_map. apply map_ext. intros r.
  destruct (RoomRow.room_id r =? room_id); [apply upd_room_id | reflexivity].
Qed.

Lemma update_where_In (l : list RoomRow.t) (r' : RoomRow.t) :
  In r' (update_where upd room_id l) ->
  exists r, In r l /\
    ((RoomRow.room_id r = room_id /\ r' = upd r) \/
     (RoomRow.room_id r <> room_id /\ r' = r)).
Proof.
  unfold update_where. intros H. apply in_map_iff in H.
  destruct H as [r [E Hr]]. exists r. split; [exact Hr|].
  destruct (Z.eqb_spec (RoomRow.room_id r) room_id); [left | right]; now split.
Qed.

Lemma update_where_filter_same (l : list RoomRow.t) :
  filter (fun r => RoomRow.room_id r =? room_id) (update_where upd room_id l)
  = map upd (filter (fun r => RoomRow.room_id r =? room_id) l).
Proof.
  unfold update_where. induction l as [|r l IH]; [reflexivity|].
  cbn. destruct (Z.eqb_spec (RoomRow.room_id r) room_id) as [E|N].
  - rewrite upd_room_id. rewrite (proj2 (Z.eqb_eq _ _) E). cbn. now f_equal.
  - rewrite (proj2 (Z.eqb_neq _ _) N). exact IH.
Qed.

Lemma update_where_filter_other (l : list RoomRow.t) (other : Z) :
  other <> room_id ->
  filter (fun r => RoomRow.room_id r =? other) (update_where upd room_id l)
  = filter (fun r => RoomRow.room_id r =? other) l.
Proof.
  unfold update_where. intros Hne. induction l as [|r l IH]; [reflexivity|].
  cbn. destruct (Z.eqb_spec (RoomRow.room_id r) room_id) as [E|N].
  - rewrite upd_room_id.
    destruct (Z.eqb_spec (RoomRow.room_id r) other) as [E'|_]; [congruence|].
    exact IH.
  - destruct (RoomRow.room_id r =? other); [now f_equal | exact IH].
Qed.

Lemma update_where_no_match (l : list RoomRow.t) :
  filter (fun r => RoomRow.room_id r =? room_id) l = [] ->
  update_where upd room_id l = l.
Proof.
  unfold update_where. induction l as [|r l IH]; [reflexivity|].
  cbn. destruct (RoomRow.room_id r =? room_id); [discriminate|].
  intros H. now rewrite IH.
Qed.

End Tables.

(** ** Running the operations *)

Arguments room_where_room_id : simpl never.
Arguments room_user_has_key : simpl never.

Ltac run_conn :=
  unfold engine_begin, try_except, bind, execute, one, getattr, ret, raise;
  cbn [conn_db conn_faults fst snd].

Lemma room_where_room_id_room (rs : list RoomRow.t) (us : list RoomUserRow.t)
  (n room_id : Z) (d : DB) :
  rs = room d ->
  room_where_room_id (mkDB rs us n) room_id = room_where_room_id d room_id.
Proof. intros ->. reflexivity. Qed.

(** A call whose first statement fails changes nothing and answers
    [OhterError]. *)
Lemma join_room_first_fails user_id room_id ld is_host plan d :
  join_room user_id room_id ld is_host (true :: plan) d
  = (Return OhterError, d).
Proof. reflexivity. Qed.

(** No row of that id: [Result.one()] raises, the handler answers. *)
Lemma join_room_no_room user_id room_id ld is_host plan d :
  room_where_room_id d room_id = [] ->
  join_room user_id room_id ld is_host plan d = (Return OhterError, d).
Proof.
  intros E. unfold join_room, _get_room_info_by_id,
    sql_select_room_info_by_room_id. run_conn.
  destruct plan as [|[|] plan]; cbn; rewrite ?E; reflexivity.
Qed.

Lemma join_room_many_rooms user_id room_id ld is_host plan d r1 r2 rs :
  room_where_room_id d room_id = r1 :: r2 :: rs ->
  join_room user_id room_id ld is_host plan d = (Return OhterError, d).
Proof.
  intros E. unfold join_room, _get_room_info_by_id,
    sql_select_room_info_by_room_id. run_conn.
  destruct plan as [|[|] plan]; cbn; rewrite ?E; reflexivity.
Qed.

Lemma join_room_full user_id room_id ld is_host plan d r :
  room_where_room_id d room_id = [r] ->
  RoomRow.joined_user_count r >= max_user_count ->
  hd false plan = false ->
  join_room user_id room_id ld is_host plan d = (Return RoomFull, d).
Proof.
  intros E Hfull Hplan.
  assert (G : (RoomRow.joined_user_count r >=? max_user_count) = true).
  { apply Z.geb_le. lia. }
  unfold join_room, _get_room_info_by_id, sql_select_room_info_by_room_id.
  run_conn.
  destruct plan as [|[|] plan]; try discriminate; cbn; rewrite E; cbn;
    unfold RoomInfo.max_user_count_default; rewrite G; reflexivity.
Qed.

Section JoinBelowCapacity.

Variables (user_id room_id : Z) (ld : LiveDifficulty) (is_host : bool).
Variables (d : DB) (r : RoomRow.t).
Hypothesis one_room : room_where_room_id d room_id = [r].
Hypothesis below : RoomRow.joined_user_count r < max_user_count.

Let u := new_room_user user_id room_id ld is_host.

Lemma not_full :
  (RoomRow.joined_user_count r >=? max_user_count) = false.
Proof using below.
  destruct (Z.geb_spec (RoomRow.joined_user_count r) max_user_count);
    [lia | reflexivity].
Qed.

Ltac run_join K :=
  pose proof not_full as G;
  unfold join_room, _get_room_info_by_id, _create_room_user,
    _update_room_user_count, sql_select_room_info_by_room_id,
    sql_insert_room_user, sql_select_joined_user_count,
    sql_update_joined_user_count;
  run_conn;
  repeat progress
    (cbn;
     rewrite ?(room_where_room_id_room _ _ _ _ d eq_refl), ?one_room;
     unfold RoomInfo.max_user_count_default; rewrite ?G, ?K).

(** The membership is already stored: the INSERT raises, nothing is
    written. *)
Lemma join_room_duplicate plan :
  room_user_has_key d room_id user_id = true ->
  join_room user_id room_id ld is_host plan d = (Return OhterError, d).
Proof using one_room below.
  intros K.
  destruct plan as [|[|] [|[|] plan]]; run_join K; reflexivity.
Qed.

(** The INSERT itself fails: nothing is written. *)
Lemma join_room_insert_fails plan :
  join_room user_id room_id ld is_host (false :: true :: plan) d
  = (Return OhterError, d).
Proof using one_room below.
  run_join G. reflexivity.
Qed.

(** A failure after the INSERT: the handler answers, the block is left
    normally and the INSERT is committed without the count. *)
Lemma join_room_count_fails plan :
  room_user_has_key d room_id user_id = false ->
  (exists plan', plan = false :: false :: true :: plan') \/
  (exists plan', plan = false :: false :: false :: true :: plan') ->
  join_room user_id room_id ld is_host plan d
  = (Return OhterError, db_row_only d u).
Proof using one_room below.
  intros K Hplan.
  destruct Hplan as [[plan' ->]|[plan' ->]]; run_join K; reflexivity.
Qed.

(** No failure: the row is inserted and the count is the count read plus
    one. *)
Lemma join_room_succeeds plan :
  room_user_has_key d room_id user_id = false ->
  no_failure 4 plan ->
  join_room user_id room_id ld is_host plan d
  = (Return Ok,
     db_row_and_count d u (RoomRow.joined_user_count r + 1)).
Proof using one_room below.
  intros K Hplan. unfold no_failure in Hplan.
  destruct plan as [|[|] [|[|] [|[|] [|[|] plan]]]]; try discriminate;
    run_join K; reflexivity.
Qed.

(** Every plan falls under one of the four lemmas above. *)
Lemma join_room_below_cases plan :
  join_room user_id room_id ld is_host plan d = (Return OhterError, d)
  \/ (room_user_has_key d room_id user_id = false /\
      ~ no_failure 4 plan /\
      join_room user_id room_id ld is_host plan d
      = (Return OhterError, db_row_only d u))
  \/ (room_user_has_key d room_id user_id = false /\
      no_failure 4 plan /\
      join_room user_id room_id ld is_host plan d
      = (Return Ok,
         db_row_and_count d u (RoomRow.joined_user_count r + 1))).
Proof using one_room below.
  destruct (room_user_has_key d room_id user_id) eqn:K.
  { left. now apply join_room_duplicate. }
  destruct plan as [|[|] [|[|] [|[|] [|[|] plan]]]];
    try (left; first [apply join_room_first_fails
                     | apply join_room_insert_fails]);
    try (right; right; split; [reflexivity|]; split; [reflexivity|];
         apply join_room_succeeds; [exact K | reflexivity]);
    right; left; (split; [reflexivity|]); (split; [discriminate|]);
    apply join_room_count_fails; eauto.
Qed.

End JoinBelowCapacity.

Lemma create_room_succeeds live_id plan d :
  hd false plan = false ->
  create_room live_id plan d
  = (Return (auto_increment d),
     mkDB (room d ++ [RoomRow.mk (auto_increment d) live_id 0 1])
          (room_user d) (auto_increment d + 1)).
Proof. destruct plan as [|[|] plan]; try discriminate; reflexivity. Qed.

Lemma create_room_fails live_id plan d :
  create_room live_id (true :: plan) d = (Raise OperationalError, d).
Proof. reflexivity. Qed.

Lemma start_room_succeeds room_id plan d :
  hd false plan = false ->
  start_room room_id plan d = (Return tt, db_status d room_id 2).
Proof. destruct plan as [|[|] plan]; try discriminate; reflexivity. Qed.

Lemma start_room_fails room_id plan d :
  start_room room_id (true :: plan) d = (Raise OperationalError, d).
Proof. reflexivity. Qed.

Lemma get_room_status_fails room_id plan d :
  get_room_status room_id (true :: plan) d = (Raise OperationalError, d).
Proof. reflexivity. Qed.

(** Without a failure, the answer of [get_room_status] is decided by the
    rows that the id selects. *)
Lemma get_room_status_runs room_id plan d :
  hd false plan = false ->
  get_room_status room_id plan d
  = (match room_where_room_id d room_id with
     | [] => Raise NoResultFound
     | [r] => match WaitRoomStatus_of_int (RoomRow.status r) with
              | Some s => Return (RoomStatus.mk (RoomRow.room_id r) s)
              | None => Raise ValidationError
              end
     | _ :: _ :: _ => Raise MultipleResultsFound
     end, d).
Proof.
  intros Hplan. unfold get_room_status, _get_room_status,
    sql_select_room_status, RoomStatus.from_orm. run_conn.
  destruct plan as [|[|] plan]; try discriminate; cbn;
    (destruct (room_where_room_id d room_id) as [|r [|r' rs]]; cbn;
     [reflexivity | | reflexivity];
     destruct (WaitRoomStatus_of_int (RoomRow.status r)); reflexivity).
Qed.

(** The three read operations leave the store as it is, under every
    plan. *)
Lemma get_room_status_state room_id plan d :
  snd (get_room_status room_id plan d) = d.
Proof.
  destruct plan as [|[|] plan]; [| reflexivity |];
    rewrite get_room_status_runs by reflexivity; reflexivity.
Qed.

Lemma get_rooms_by_live_id_state live_id plan d :
  snd (get_rooms_by_live_id live_id plan d) = d.
Proof. destruct plan as [|[|] plan]; reflexivity. Qed.

Lemma get_room_users_state room_id user_id_req plan d :
  snd (get_room_users room_id user_id_req plan d) = d.
Proof. destruct plan as [|[|] plan]; reflexivity. Qed.

(** The stored state after [join_room], under every plan and on every
    store. *)
Lemma join_room_state user_id room_id ld is_host plan d :
  let u := new_room_user user_id room_id ld is_host in
  snd (join_room user_id room_id ld is_host plan d) = d
  \/ exists r,
       room_where_room_id d room_id = [r]
       /\ RoomRow.joined_user_count r < max_user_count
       /\ room_user_has_key d room_id user_id = false
       /\ ((~ no_failure 4 plan /\
            snd (join_room user_id room_id ld is_host plan d)
            = db_row_only d u)
           \/ (no_failure 4 plan /\
               snd (join_room user_id room_id ld is_host plan d)
               = db_row_and_count d u (RoomRow.joined_user_count r + 1))).
Proof.
  intros u.
  destruct (room_where_room_id d room_id) as [|r [|r' rs]] eqn:E.
  - left. now rewrite join_room_no_room.
  - destruct (Z.ltb_spec (RoomRow.joined_user_count r) max_user_count)
      as [Hlt|Hge].
    + destruct (join_room_below_cases user_id room_id ld is_host d r E Hlt plan)
        as [H|[(K & F & H)|(K & F & H)]]; rewrite H; cbn [snd].
      * now left.
      * right. exists r. repeat split; auto.
      * right. exists r. repeat split; auto.
    + left. destruct plan as [|[|] plan].
      * rewrite (join_room_full _ _ _ _ _ _ r); auto. lia.
      * reflexivity.
      * rewrite (join_room_full _ _ _ _ _ _ r); auto. lia.
  - left. now rewrite (join_room_many_rooms _ _ _ _ _ _ r r' rs).
Qed.


(** ** The invariant of the store *)

Lemma store_invariant_empty : store_invariant empty_db.
Proof.
  split; cbn; try contradiction. constructor.
Qed.

Lemma store_invariant_insert_room d live_id :
  store_invariant d ->
  store_invariant
    (mkDB (room d ++ [RoomRow.mk (auto_increment d) live_id 0 1])
          (room_user d) (auto_increment d + 1)).
Proof.
  intros [U F C S Mb]. split; cbn.
  - unfold room_id_unique in *. cbn. rewrite map_app. cbn.
    apply NoDup_app; [exact U | repeat constructor; intros [] |].
    intros a Ha [<-|[]]. apply in_map_iff in Ha.
    destruct Ha as [r [E Hr]]. specialize (F r Hr). lia.
  - intros r Hr. apply in_app_or in Hr. destruct Hr as [Hr|[<-|[]]].
    + specialize (F r Hr). lia.
    + cbn. lia.
  - intros r Hr. apply in_app_or in Hr. destruct Hr as [Hr|[<-|[]]].
    + now apply C.
    + cbn. unfold max_user_count. lia.
  - intros r Hr. apply in_app_or in Hr. destruct Hr as [Hr|[<-|[]]].
    + now apply S.
    + now left.
  - intros u Hu. specialize (Mb u Hu). lia.
Qed.

Lemma store_invariant_row_only d u r :
  store_invariant d -> In r (room d) ->
  RoomUserRow.room_id u = RoomRow.room_id r ->
  store_invariant (db_row_only d u).
Proof.
  intros [U F C S Mb] Hr E. split; cbn; auto.
  intros u' Hu'. apply in_app_or in Hu'. destruct Hu' as [Hu'|[<-|[]]].
  - now apply Mb.
  - rewrite E. now apply F.
Qed.

Lemma store_invariant_row_and_count d u r :
  store_invariant d -> In r (room d) ->
  RoomUserRow.room_id u = RoomRow.room_id r ->
  RoomRow.joined_user_count r < max_user_count ->
  store_invariant (db_row_and_count d u (RoomRow.joined_user_count r + 1)).
Proof.
  intros [U F C S Mb] Hr E Hlt. split; cbn.
  - unfold room_id_unique in *. cbn.
    rewrite update_where_ids; [exact U | reflexivity].
  - intros r' Hr'. apply update_where_In in Hr'.
    destruct Hr' as [r0 [H0 [[_ ->]|[_ ->]]]]; cbn; now apply F.
  - intros r' Hr'. apply update_where_In in Hr'.
    destruct Hr' as [r0 [H0 [[_ ->]|[_ ->]]]]; cbn; [| now apply C].
    specialize (C r Hr). lia.
  - intros r' Hr'. apply update_where_In in Hr'.
    destruct Hr' as [r0 [H0 [[_ ->]|[_ ->]]]]; cbn; now apply S.
  - intros u' Hu'. apply in_app_or in Hu'. destruct Hu' as [Hu'|[<-|[]]].
    + now apply Mb.
    + rewrite E. now apply F.
Qed.

Lemma store_invariant_status d room_id :
  store_invariant d ->
  store_invariant (db_status d room_id (int_of_WaitRoomStatus LiveStart)).
Proof.
  intros [U F C S Mb]. split; cbn; auto.
  - unfold room_id_unique in *. cbn.
    rewrite update_where_ids; [exact U | reflexivity].
  - intros r' Hr'. apply update_where_In in Hr'.
    destruct Hr' as [r0 [H0 [[_ ->]|[_ ->]]]]; cbn; now apply F.
  - intros r' Hr'. apply update_where_In in Hr'.
    destruct Hr' as [r0 [H0 [[_ ->]|[_ ->]]]]; cbn; now apply C.
  - intros r' Hr'. apply update_where_In in Hr'.
    destruct Hr' as [r0 [H0 [[_ ->]|[_ ->]]]]; cbn; [now right | now apply S].
Qed.

Lemma one_room_In d room_id r :
  room_where_room_id d room_id = [r] ->
  In r (room d) /\ RoomRow.room_id r = room_id.
Proof.
  intros E. apply room_where_room_id_In. rewrite E. now left.
Qed.

(** Every call keeps the invariant, whatever fails. *)
Lemma store_invariant_run c plan d :
  store_invariant d -> store_invariant (run c plan d).
Proof.
  intros I. destruct c as [live_id|user_id room_id ld is_host|live_id
                          |room_id|room_id user_id_req|room_id]; cbn [run].
  - destruct plan as [|[|] plan];
      [rewrite create_room_succeeds by reflexivity
      | rewrite create_room_fails
      | rewrite create_room_succeeds by reflexivity]; cbn [snd]; auto;
      now apply store_invariant_insert_room.
  - destruct (join_room_state user_id room_id ld is_host plan d)
      as [->|(r & E & Hlt & K & [[_ ->]|[_ ->]])]; auto;
      destruct (one_room_In _ _ _ E) as [Hr Hid].
    + apply (store_invariant_row_only d _ r); auto.
    + apply (store_invariant_row_and_count d _ r); auto.
  - now rewrite get_rooms_by_live_id_state.
  - now rewrite get_room_status_state.
  - now rewrite get_room_users_state.
  - destruct plan as [|[|] plan];
      [rewrite start_room_succeeds by reflexivity
      | rewrite start_room_fails
      | rewrite start_room_succeeds by reflexivity]; cbn [snd]; auto;
      now apply store_invariant_status.
Qed.

Lemma reachable_store_invariant d : reachable d -> store_invariant d.
Proof.
  induction 1 as [|c plan d _ IH];
    [exact store_invariant_empty | now apply store_invariant_run].
Qed.

Lemma reachable_without_failure_reachable d :
  reachable_without_failure d -> reachable d.
Proof. induction 1; now constructor. Qed.

(** ** Count and membership rows when nothing fails *)

Lemma room_user_count_insert rs us n u room_id :
  room_user_count (mkDB rs (us ++ [u]) n) room_id
  = room_user_count (mkDB rs us n) room_id
    + (if RoomUserRow.room_id u =? room_id then 1 else 0).
Proof.
  unfold room_user_count, room_user_where_room_id. cbn [room_user].
  rewrite filter_app, length_app. cbn [filter].
  destruct (RoomUserRow.room_id u =? room_id); cbn [length]; lia.
Qed.

Lemma room_user_count_room rs rs' us n n' room_id :
  room_user_count (mkDB rs us n) room_id
  = room_user_count (mkDB rs' us n') room_id.
Proof. reflexivity. Qed.

Lemma room_user_count_fresh d room_id :
  (forall u, In u (room_user d) -> RoomUserRow.room_id u < room_id) ->
  room_user_count d room_id = 0.
Proof.
  intros H. unfold room_user_count, room_user_where_room_id.
  induction (room_user d) as [|u us IH]; [reflexivity|].
  cbn [filter]. destruct (Z.eqb_spec (RoomUserRow.room_id u) room_id) as [E|_].
  - specialize (H u (or_introl eq_refl)). lia.
  - apply IH. intros u' Hu'. apply H. now right.
Qed.

Lemma count_consistent_insert_room d live_id :
  store_invariant d -> count_consistent d ->
  count_consistent
    (mkDB (room d ++ [RoomRow.mk (auto_increment d) live_id 0 1])
          (room_user d) (auto_increment d + 1)).
Proof.
  intros I CC r Hr. cbn in Hr. apply in_app_or in Hr.
  destruct Hr as [Hr|[<-|[]]].
  - rewrite (CC r Hr). reflexivity.
  - cbn [RoomRow.joined_user_count RoomRow.room_id]. symmetry.
    rewrite (room_user_count_room _ (room d) _ _ (auto_increment d)).
    apply (room_user_count_fresh d). apply (inv_member d I).
Qed.

Lemma count_consistent_row_and_count d u r :
  room_where_room_id d (RoomUserRow.room_id u) = [r] ->
  count_consistent d ->
  count_consistent (db_row_and_count d u (RoomRow.joined_user_count r + 1)).
Proof.
  intros E CC r' Hr'. unfold db_row_and_count in *. cbn [room] in Hr'.
  rewrite room_user_count_insert.
  rewrite (room_user_count_room _ (room d) _ _ (auto_increment d)).
  assert (Hd : forall x, room_user_count
                 (mkDB (room d) (room_user d) (auto_increment d)) x
               = room_user_count d x) by reflexivity.
  rewrite Hd. apply update_where_In in Hr'.
  destruct Hr' as [r0 [H0 [[Hid ->]|[Hid ->]]]].
  - cbn [set_joined_user_count RoomRow.joined_user_count RoomRow.room_id].
    rewrite Hid, Z.eqb_refl.
    assert (Hin : In r0 (room_where_room_id d (RoomUserRow.room_id u))).
    { apply filter_In. split; [exact H0 | now apply Z.eqb_eq]. }
    rewrite E in Hin. destruct Hin as [<-|[]].
    rewrite (CC r H0), Hid. reflexivity.
  - destruct (Z.eqb_spec (RoomUserRow.room_id u) (RoomRow.room_id r0))
      as [Heq|_]; [congruence|].
    rewrite (CC r0 H0). lia.
Qed.

Lemma count_consistent_status d room_id status :
  count_consistent d -> count_consistent (db_status d room_id status).
Proof.
  intros CC r' Hr'. cbn [db_status room] in Hr'.
  apply update_where_In in Hr'.
  destruct Hr' as [r0 [H0 [[Hid ->]|[Hid ->]]]];
    cbn [set_status RoomRow.joined_user_count RoomRow.room_id];
    rewrite (CC r0 H0); reflexivity.
Qed.

(** Along runs in which no statement fails, the count of every room is the
    number of its membership rows. *)
Lemma count_consistent_without_failure d :
  reachable_without_failure d -> count_consistent d.
Proof.
  intros R. induction R as [|c d R IH]; [intros r []|].
  pose proof (reachable_store_invariant d
                (reachable_without_failure_reachable d R)) as I.
  destruct c as [live_id|user_id room_id ld is_host|live_id
                |room_id|room_id user_id_req|room_id]; cbn [run].
  - rewrite create_room_succeeds by reflexivity. cbn [snd].
    now apply count_consistent_insert_room.
  - destruct (join_room_state user_id room_id ld is_host [] d)
      as [->|(r & E & Hlt & K & [[F _]|[_ ->]])]; auto.
    + exfalso. apply F. reflexivity.
    + now apply count_consistent_row_and_count.
  - now rewrite get_rooms_by_live_id_state.
  - now rewrite get_room_status_state.
  - now rewrite get_room_users_state.
  - rewrite start_room_succeeds by reflexivity. cbn [snd].
    now apply count_consistent_status.
Qed.

(** ** The scenario states are reached *)

Lemma db_one_room_created :
  create_room 100 [] empty_db = (Return 1, db_one_room).
Proof. reflexivity. Qed.

Lemma db_full_room_joined :
  join_each [1; 2; 3; 4] 1 db_one_room
  = ([Return Ok; Return Ok; Return Ok; Return Ok], db_full_room).
Proof. reflexivity. Qed.

Lemma reachable_db_one_room : reachable db_one_room.
Proof.
  change db_one_room with (run (call_create_room 100) [] empty_db).
  apply reachable_run, reachable_empty.
Defined.

Lemma reachable_db_partial : reachable db_partial.
Proof.
  change db_partial
    with (run (call_join_room 1 1 hard true) [false; false; false; true]
              db_one_room).
  apply reachable_run, reachable_db_one_room.
Defined.

Lemma reachable_db_full_room : reachable db_full_room.
Proof.
  change db_full_room
    with (run (call_join_room 4 1 normal false) []
           (run (call_join_room 3 1 normal false) []
             (run (call_join_room 2 1 normal false) []
               (run (call_join_room 1 1 normal false) [] db_one_room)))).
  repeat apply reachable_run. apply reachable_db_one_room.
Defined.

(** The scenario of the specification, one call after the other: ten users
    join a fresh room; the first four are accepted, the other six find the
    room full, and the count ends at four. *)
Example ten_joins_in_sequence :
  join_each [1; 2; 3; 4; 5; 6; 7; 8; 9; 10] 1 db_one_room
  = ([Return Ok; Return Ok; Return Ok; Return Ok;
      Return RoomFull; Return RoomFull; Return RoomFull;
      Return RoomFull; Return RoomFull; Return RoomFull],
     db_full_room).
Proof. reflexivity. Qed.


(** ** Properties of the room lifecycle *)

Lemma db_eta d : mkDB (room d) (room_user d) (auto_increment d) = d.
Proof. destruct d; reflexivity. Qed.

Lemma room_where_room_id_db_status d room_id status :
  room_where_room_id (db_status d room_id status) room_id
  = map (set_status status) (room_where_room_id d room_id).
Proof.
  unfold room_where_room_id, db_status. cbn [room].
  apply update_where_filter_same. reflexivity.
Qed.

Lemma room_where_room_id_db_status_other d room_id status other :
  other <> room_id ->
  room_where_room_id (db_status d room_id status) other
  = room_where_room_id d other.
Proof.
  intros N. unfold room_where_room_id, db_status. cbn [room].
  apply update_where_filter_other; [reflexivity | exact N].
Qed.

Lemma room_where_room_id_db_row_and_count d u n :
  room_where_room_id (db_row_and_count d u n) (RoomUserRow.room_id u)
  = map (set_joined_user_count n)
        (room_where_room_id d (RoomUserRow.room_id u)).
Proof.
  unfold room_where_room_id, db_row_and_count. cbn [room].
  apply update_where_filter_same. reflexivity.
Qed.

Lemma room_where_room_id_db_row_and_count_other d u n other :
  other <> RoomUserRow.room_id u ->
  room_where_room_id (db_row_and_count d u n) other
  = room_where_room_id d other.
Proof.
  intros N. unfold room_where_room_id, db_row_and_count. cbn [room].
  apply update_where_filter_other; [reflexivity | exact N].
Qed.

(** C2.  The claim is that [join_room] on an id with no room row answers
    [Disbanded] and writes nothing.  On the code, [Result.one()] raises
    [NoResultFound] for the empty selection, the handler of [join_room]
    catches it, and the answer is [OhterError]; nothing is written.  Here:
    user 1 joins room 1 of the empty store. *)
Theorem join_room_missing_room_OhterError :
  room_where_room_id empty_db 1 = []
  /\ join_room 1 1 normal false [] empty_db = (Return OhterError, empty_db)
  /\ fst (join_room 1 1 normal false [] empty_db) <> Return Disbanded.
Proof.
  split; [reflexivity|].
  rewrite (join_room_no_room 1 1 normal false [] empty_db eq_refl).
  split; [reflexivity | discriminate].
Qed.

(** C3.  The claim is that a storage error inside [join_room] yields
    [OhterError] and leaves the store as it was.  On the code the answer is
    [OhterError], but the handler sits inside the transaction block: the
    block is left by a [return] and the transaction commits.  Here: user 1
    joins the fresh room 1 and the UPDATE of the count (the fourth
    statement) fails; the membership row is stored, the count is still 0. *)
Theorem join_room_failure_commits_membership_row :
  join_room 1 1 hard true [false; false; false; true] db_one_room
  = (Return OhterError, db_partial)
  /\ room_user db_one_room = []
  /\ room_user db_partial = [RoomUserRow.mk 1 1 2 true]
  /\ room db_partial = room db_one_room
  /\ db_partial <> db_one_room.
Proof.
  split; [|repeat split; discriminate].
  apply (join_room_count_fails 1 1 hard true db_one_room
           (RoomRow.mk 1 100 0 1) eq_refl eq_refl
           [false; false; false; true] eq_refl).
  right. now exists [].
Qed.

(** C4.  The claim is that in every reachable state the count of a room is
    the number of its membership rows.  The state left by the failed join
    of C3 is reachable, and its room 1 has count 0 and one membership
    row. *)
Theorem reachable_count_differs_from_rows :
  reachable db_partial
  /\ In (RoomRow.mk 1 100 0 1) (room db_partial)
  /\ RoomRow.joined_user_count (RoomRow.mk 1 100 0 1) = 0
  /\ room_user_count db_partial 1 = 1
  /\ ~ count_consistent db_partial.
Proof.
  split; [exact reachable_db_partial|].
  split; [now left|]. split; [reflexivity|]. split; [reflexivity|].
  intros CC. specialize (CC (RoomRow.mk 1 100 0 1) (or_introl eq_refl)).
  discriminate CC.
Qed.

(** C5.  In every state reachable through the operations, failures of
    statements included, the count of every room is at least 0 and at most
    [max_user_count] = 4. *)
Theorem joined_user_count_within_capacity d r :
  reachable d -> In r (room d) ->
  0 <= RoomRow.joined_user_count r <= max_user_count /\ max_user_count = 4.
Proof.
  intros R Hr. split; [|reflexivity].
  exact (inv_count d (reachable_store_invariant d R) r Hr).
Qed.

Lemma joined_user_count_within_capacity_witness :
  0 <= RoomRow.joined_user_count (RoomRow.mk 1 100 4 1) <= max_user_count
  /\ max_user_count = 4.
Proof.
  apply (joined_user_count_within_capacity db_full_room
           (RoomRow.mk 1 100 4 1)).
  - exact reachable_db_full_room.
  - left. reflexivity.
Defined.

(** C6.  On a store whose room ids are distinct, for every stored room with
    count at least [max_user_count], [join_room] whose first statement does
    not fail answers [RoomFull] and the store is the one before the call:
    no membership row, the same count, nothing else touched. *)
Theorem join_room_full_room_RoomFull d r user_id ld is_host plan :
  room_id_unique d -> In r (room d) ->
  RoomRow.joined_user_count r >= max_user_count ->
  hd false plan = false ->
  join_room user_id (RoomRow.room_id r) ld is_host plan d
  = (Return RoomFull, d).
Proof.
  intros U Hr Hfull Hplan.
  apply (join_room_full _ _ _ _ _ _ r); auto.
  now apply room_where_room_id_unique.
Qed.

Lemma room_id_unique_db_full_room : room_id_unique db_full_room.
Proof.
  unfold room_id_unique. cbn. constructor; [intros [] | constructor].
Defined.

Lemma room_id_unique_db_one_room : room_id_unique db_one_room.
Proof.
  unfold room_id_unique. cbn. constructor; [intros [] | constructor].
Defined.

Lemma join_room_full_room_RoomFull_witness :
  join_room 5 1 hard false [] db_full_room = (Return RoomFull, db_full_room).
Proof.
  apply (join_room_full_room_RoomFull db_full_room (RoomRow.mk 1 100 4 1)
           5 hard false []).
  - exact room_id_unique_db_full_room.
  - left. reflexivity.
  - discriminate.
  - reflexivity.
Defined.

(** C7.  On a store whose room ids are distinct, for every stored room with
    count below [max_user_count], a [join_room] that meets no storage error
    (none of its four statements fails and the pair of room and user is not
    yet a key of [room_user]) answers [Ok]; it appends exactly one
    membership row, with the given room id, user id, difficulty and host
    flag; the count of the room is one more; live id and status of the room,
    every other room and the id generator are as before. *)
Theorem join_room_below_capacity_Ok d r user_id ld is_host plan :
  room_id_unique d -> In r (room d) ->
  RoomRow.joined_user_count r < max_user_count ->
  room_user_has_key d (RoomRow.room_id r) user_id = false ->
  no_failure 4 plan ->
  exists d',
    join_room user_id (RoomRow.room_id r) ld is_host plan d = (Return Ok, d')
    /\ room_user d'
       = room_user d
         ++ [RoomUserRow.mk (RoomRow.room_id r) user_id
               (int_of_LiveDifficulty ld) is_host]
    /\ room_where_room_id d' (RoomRow.room_id r)
       = [RoomRow.mk (RoomRow.room_id r) (RoomRow.live_id r)
            (RoomRow.joined_user_count r + 1) (RoomRow.status r)]
    /\ (forall other, other <> RoomRow.room_id r ->
          room_where_room_id d' other = room_where_room_id d other)
    /\ map RoomRow.room_id (room d') = map RoomRow.room_id (room d)
    /\ auto_increment d' = auto_increment d.
Proof.
  intros U Hr Hlt K Hplan.
  pose proof (room_where_room_id_unique d r U Hr) as E.
  set (u := new_room_user user_id (RoomRow.room_id r) ld is_host).
  exists (db_row_and_count d u (RoomRow.joined_user_count r + 1)).
  split; [now apply join_room_succeeds|].
  split; [reflexivity|].
  split.
  { change (RoomRow.room_id r) with (RoomUserRow.room_id u) at 1.
    rewrite room_where_room_id_db_row_and_count.
    change (RoomUserRow.room_id u) with (RoomRow.room_id r).
    rewrite E. reflexivity. }
  split.
  { intros other N. now apply room_where_room_id_db_row_and_count_other. }
  split; [|reflexivity].
  unfold db_row_and_count. cbn [room]. now apply update_where_ids.
Qed.

Lemma join_room_below_capacity_Ok_witness :
  exists d',
    join_room 1 1 hard true [] db_one_room = (Return Ok, d')
    /\ room_user d' = [] ++ [RoomUserRow.mk 1 1 2 true]
    /\ room_where_room_id d' 1 = [RoomRow.mk 1 100 (0 + 1) 1]
    /\ (forall other, other <> 1 ->
          room_where_room_id d' other = room_where_room_id db_one_room other)
    /\ map RoomRow.room_id (room d') = [1]
    /\ auto_increment d' = 2.
Proof.
  apply (join_room_below_capacity_Ok db_one_room (RoomRow.mk 1 100 0 1)
           1 hard true []).
  - exact room_id_unique_db_one_room.
  - left. reflexivity.
  - reflexivity.
  - reflexivity.
  - reflexivity.
Defined.

(** C8.  On a store whose room ids are distinct, for every stored room,
    whatever its status, [start_room] whose statement does not fail stores
    status [LiveStart] for it: the room keeps its id, live id and count;
    the rooms of other ids, the membership rows and the id generator are as
    before; and [get_room_status] then answers [LiveStart]. *)
Theorem start_room_sets_LiveStart d r plan :
  room_id_unique d -> In r (room d) -> hd false plan = false ->
  exists d',
    start_room (RoomRow.room_id r) plan d = (Return tt, d')
    /\ room_where_room_id d' (RoomRow.room_id r)
       = [RoomRow.mk (RoomRow.room_id r) (RoomRow.live_id r)
            (RoomRow.joined_user_count r) (int_of_WaitRoomStatus LiveStart)]
    /\ (forall other, other <> RoomRow.room_id r ->
          room_where_room_id d' other = room_where_room_id d other)
    /\ map RoomRow.room_id (room d') = map RoomRow.room_id (room d)
    /\ room_user d' = room_user d
    /\ auto_increment d' = auto_increment d
    /\ get_room_status (RoomRow.room_id r) [] d'
       = (Return (RoomStatus.mk (RoomRow.room_id r) LiveStart), d').
Proof.
  intros U Hr Hplan.
  pose proof (room_where_room_id_unique d r U Hr) as E.
  exists (db_status d (RoomRow.room_id r) (int_of_WaitRoomStatus LiveStart)).
  assert (E' : room_where_room_id
                 (db_status d (RoomRow.room_id r)
                    (int_of_WaitRoomStatus LiveStart)) (RoomRow.room_id r)
               = [RoomRow.mk (RoomRow.room_id r) (RoomRow.live_id r)
                    (RoomRow.joined_user_count r)
                    (int_of_WaitRoomStatus LiveStart)]).
  { rewrite room_where_room_id_db_status, E. reflexivity. }
  split; [now apply start_room_succeeds|].
  split; [exact E'|].
  split.
  { intros other N. now apply room_where_room_id_db_status_other. }
  split.
  { unfold db_status. cbn [room]. now apply update_where_ids. }
  split; [reflexivity|]. split; [reflexivity|].
  rewrite get_room_status_runs by reflexivity. rewrite E'. reflexivity.
Qed.

Lemma start_room_sets_LiveStart_witness :
  exists d',
    start_room 1 [] db_full_room = (Return tt, d')
    /\ room_where_room_id d' 1 = [RoomRow.mk 1 100 4 2]
    /\ (forall other, other <> 1 ->
          room_where_room_id d' other = room_where_room_id db_full_room other)
    /\ map RoomRow.room_id (room d') = [1]
    /\ room_user d' = room_user db_full_room
    /\ auto_increment d' = 2
    /\ get_room_status 1 [] d' = (Return (RoomStatus.mk 1 LiveStart), d').
Proof.
  apply (start_room_sets_LiveStart db_full_room (RoomRow.mk 1 100 4 1) []).
  - exact room_id_unique_db_full_room.
  - left. reflexivity.
  - reflexivity.
Defined.

(** C9.  In every reachable state: [get_room_status] leaves the store as it
    is under every plan; for a stored room, when its statement does not
    fail, it returns the room id with the stored status; and it raises
    [NoResultFound] exactly when no row has that id. *)
Theorem get_room_status_found_or_NoResultFound d room_id :
  reachable d ->
  (forall plan, snd (get_room_status room_id plan d) = d)
  /\ (forall r plan, In r (room d) -> RoomRow.room_id r = room_id ->
        hd false plan = false ->
        exists s,
          RoomRow.status r = int_of_WaitRoomStatus s
          /\ get_room_status room_id plan d
             = (Return (RoomStatus.mk room_id s), d))
  /\ (forall plan, hd false plan = false ->
        (fst (get_room_status room_id plan d) = Raise NoResultFound
         <-> forall r, In r (room d) -> RoomRow.room_id r <> room_id)).
Proof.
  intros R. pose proof (reachable_store_invariant d R) as I.
  split; [intros plan; apply get_room_status_state|].
  split.
  - intros r plan Hr <- Hplan.
    rewrite get_room_status_runs by exact Hplan.
    rewrite (room_where_room_id_unique d r (inv_unique d I) Hr).
    destruct (inv_status d I r Hr) as [S|S]; rewrite S;
      [exists Waiting | exists LiveStart]; split; reflexivity.
  - intros plan Hplan. rewrite get_room_status_runs by exact Hplan.
    cbn [fst]. rewrite <- room_where_room_id_nil.
    destruct (room_where_room_id d room_id) as [|r [|r' rs]] eqn:E.
    + split; reflexivity.
    + split; [|discriminate].
      destruct (WaitRoomStatus_of_int (RoomRow.status r)); discriminate.
    + split; discriminate.
Qed.

Lemma get_room_status_found_or_NoResultFound_witness :
  (forall plan, snd (get_room_status 1 plan db_one_room) = db_one_room)
  /\ (forall r plan, In r (room db_one_room) -> RoomRow.room_id r = 1 ->
        hd false plan = false ->
        exists s,
          RoomRow.status r = int_of_WaitRoomStatus s
          /\ get_room_status 1 plan db_one_room
             = (Return (RoomStatus.mk 1 s), db_one_room))
  /\ (forall plan, hd false plan = false ->
        (fst (get_room_status 1 plan db_one_room) = Raise NoResultFound
         <-> forall r, In r (room db_one_room) -> RoomRow.room_id r <> 1)).
Proof.
  exact (get_room_status_found_or_NoResultFound db_one_room 1
           reachable_db_one_room).
Defined.

(** C10.  When no row has the id, [start_room] whose statement does not
    fail returns without an exception and the store is the one before the
    call, while [get_room_status] on the same id raises [NoResultFound]. *)
Theorem start_room_missing_room_no_op d room_id plan :
  (forall r, In r (room d) -> RoomRow.room_id r <> room_id) ->
  hd false plan = false ->
  start_room room_id plan d = (Return tt, d)
  /\ get_room_status room_id plan d = (Raise NoResultFound, d).
Proof.
  intros H Hplan. apply room_where_room_id_nil in H. split.
  - rewrite start_room_succeeds by exact Hplan. f_equal.
    unfold db_status. rewrite update_where_no_match by exact H.
    apply db_eta.
  - rewrite get_room_status_runs by exact Hplan. now rewrite H.
Qed.

Lemma start_room_missing_room_no_op_witness :
  start_room 7 [] db_one_room = (Return tt, db_one_room)
  /\ get_room_status 7 [] db_one_room = (Raise NoResultFound, db_one_room).
Proof.
  apply (start_room_missing_room_no_op db_one_room 7 []).
  - intros r [<-|[]]. discriminate.
  - reflexivity.
Defined.


(** ** Further properties: shapes of a step and the membership table *)

Lemma run_shape c plan d : step_shape d (run c plan d).
Proof.
  destruct c as [live_id|user_id room_id ld is_host|live_id
                |room_id|room_id user_id_req|room_id]; cbn [run].
  - destruct plan as [|[|] plan];
      [rewrite create_room_succeeds by reflexivity
      | rewrite create_room_fails
      | rewrite create_room_succeeds by reflexivity]; cbn [snd];
      constructor.
  - destruct (join_room_state user_id room_id ld is_host plan d)
      as [->|(r & E & Hlt & K & [[_ ->]|[_ ->]])].
    + constructor.
    + now apply (shape_row_only d _ r).
    + now apply (shape_row_and_count d _ r).
  - rewrite get_rooms_by_live_id_state. constructor.
  - rewrite get_room_status_state. constructor.
  - rewrite get_room_users_state. constructor.
  - destruct plan as [|[|] plan];
      [rewrite start_room_succeeds by reflexivity
      | rewrite start_room_fails
      | rewrite start_room_succeeds by reflexivity]; cbn [snd];
      constructor.
Qed.

Lemma room_user_has_key_false d room_id user_id :
  room_user_has_key d room_id user_id = false ->
  ~ In (room_id, user_id) (map room_user_key (room_user d)).
Proof.
  unfold room_user_has_key. intros H Hin. apply in_map_iff in Hin.
  destruct Hin as [u [E Hu]]. unfold room_user_key in E.
  injection E as E1 E2.
  assert (X : existsb
                (fun u => (RoomUserRow.room_id u =? room_id)
                          && (RoomUserRow.user_id u =? user_id))
                (room_user d) = true).
  { apply existsb_exists. exists u. split; [exact Hu|].
    rewrite E1, E2, !Z.eqb_refl. reflexivity. }
  rewrite X in H. discriminate.
Qed.

Lemma room_user_key_unique_insert d u :
  room_user_key_unique d ->
  room_user_has_key d (RoomUserRow.room_id u) (RoomUserRow.user_id u) = false ->
  NoDup (map room_user_key (room_user d ++ [u])).
Proof.
  intros U K. rewrite map_app. cbn [map].
  apply NoDup_app; [exact U | repeat constructor; intros [] |].
  intros k Hk [<-|[]]. revert Hk. now apply room_user_has_key_false.
Qed.

Lemma room_user_key_unique_step d d' :
  step_shape d d' -> room_user_key_unique d -> room_user_key_unique d'.
Proof.
  intros S U. destruct S as [|live_id|u r E Hlt K|u r E Hlt K|room_id];
    unfold room_user_key_unique in *; cbn [room_user db_row_only
      db_row_and_count db_status]; auto;
    now apply room_user_key_unique_insert.
Qed.

Lemma room_user_references_room_step d d' :
  step_shape d d' ->
  room_user_references_room d -> room_user_references_room d'.
Proof.
  intros S F. destruct S as [|live_id|u r E Hlt K|u r E Hlt K|room_id];
    unfold room_user_references_room in *;
    cbn [room room_user db_row_only db_row_and_count db_status]; auto.
  - intros u Hu. rewrite map_app. apply in_or_app. left. now apply F.
  - intros u' Hu'. apply in_app_or in Hu'. destruct Hu' as [Hu'|[<-|[]]].
    + now apply F.
    + destruct (one_room_In _ _ _ E) as [Hr <-]. now apply in_map.
  - intros u' Hu'. rewrite update_where_ids by reflexivity.
    apply in_app_or in Hu'. destruct Hu' as [Hu'|[<-|[]]].
    + now apply F.
    + destruct (one_room_In _ _ _ E) as [Hr <-]. now apply in_map.
  - intros u Hu. rewrite update_where_ids by reflexivity. now apply F.
Qed.

Lemma reachable_room_user_key_unique_step d :
  reachable d -> room_user_key_unique d.
Proof.
  induction 1 as [|c plan d _ IH]; [constructor|].
  exact (room_user_key_unique_step d _ (run_shape c plan d) IH).
Qed.

(** X7.  In every reachable state, failures included, no two membership
    rows have the same pair of room id and user id. *)
Theorem reachable_room_user_key_unique d u1 u2 l1 l2 l3 :
  reachable d ->
  room_user d = l1 ++ u1 :: l2 ++ u2 :: l3 ->
  RoomUserRow.room_id u1 <> RoomUserRow.room_id u2
  \/ RoomUserRow.user_id u1 <> RoomUserRow.user_id u2.
Proof.
  intros R E. pose proof (reachable_room_user_key_unique_step d R) as U.
  unfold room_user_key_unique in U. rewrite E in U.
  rewrite map_app in U. cbn [map] in U. apply NoDup_remove_2 in U.
  destruct (Z.eq_dec (RoomUserRow.room_id u1) (RoomUserRow.room_id u2))
    as [E1|N1]; [|now left].
  destruct (Z.eq_dec (RoomUserRow.user_id u1) (RoomUserRow.user_id u2))
    as [E2|N2]; [|now right].
  exfalso. apply U. apply in_or_app. right. rewrite map_app.
  apply in_or_app. right. left. unfold room_user_key. congruence.
Qed.

Lemma reachable_room_user_key_unique_witness :
  RoomUserRow.room_id (RoomUserRow.mk 1 2 1 false)
  <> RoomUserRow.room_id (RoomUserRow.mk 1 4 1 false)
  \/ RoomUserRow.user_id (RoomUserRow.mk 1 2 1 false)
     <> RoomUserRow.user_id (RoomUserRow.mk 1 4 1 false).
Proof.
  apply (reachable_room_user_key_unique db_full_room
           (RoomUserRow.mk 1 2 1 false) (RoomUserRow.mk 1 4 1 false)
           [RoomUserRow.mk 1 1 1 false] [RoomUserRow.mk 1 3 1 false] []).
  - exact reachable_db_full_room.
  - reflexivity.
Defined.

(** X9.  In every reachable state, failures included, every membership row
    carries the id of a room that is stored. *)
Theorem reachable_room_user_references_room d u :
  reachable d -> In u (room_user d) ->
  exists r, In r (room d) /\ RoomRow.room_id r = RoomUserRow.room_id u.
Proof.
  intros R Hu.
  assert (F : room_user_references_room d).
  { clear u Hu. induction R as [|c plan d _ IH]; [intros u []|].
    exact (room_user_references_room_step d _ (run_shape c plan d) IH). }
  specialize (F u Hu). apply in_map_iff in F.
  destruct F as [r [E Hr]]. now exists r.
Qed.

Lemma reachable_room_user_references_room_witness :
  exists r, In r (room db_partial)
            /\ RoomRow.room_id r
               = RoomUserRow.room_id (RoomUserRow.mk 1 1 2 true).
Proof.
  apply (reachable_room_user_references_room db_partial
           (RoomUserRow.mk 1 1 2 true)).
  - exact reachable_db_partial.
  - left. reflexivity.
Defined.

(** ** Further properties: [create_room] and the read operations *)

Lemma room_where_room_id_insert_room d live_id other :
  room_where_room_id
    (mkDB (room d ++ [RoomRow.mk (auto_increment d) live_id 0 1])
          (room_user d) (auto_increment d + 1)) other
  = room_where_room_id d other
    ++ (if auto_increment d =? other
        then [RoomRow.mk (auto_increment d) live_id 0 1] else []).
Proof.
  unfold room_where_room_id. cbn [room]. rewrite filter_app. cbn.
  destruct (auto_increment d =? other); reflexivity.
Qed.

Lemma get_rooms_by_live_id_runs live_id plan d :
  hd false plan = false ->
  get_rooms_by_live_id live_id plan d
  = (Return (map RoomInfo.from_orm (room_where_live_id d live_id)), d).
Proof. destruct plan as [|[|] plan]; try discriminate; reflexivity. Qed.

Lemma get_room_users_runs room_id user_id_req plan d :
  hd false plan = false ->
  get_room_users room_id user_id_req plan d
  = (Return (map (room_user_entry user_id_req)
                 (room_user_where_room_id d room_id)), d).
Proof.
  intros Hplan.
  assert (E : forall rows,
             map (fun row =>
                    let room_user := RoomUser.from_orm row in
                    if RoomUser.user_id room_user =? user_id_req
                    then RoomUser.set_is_me room_user true
                    else room_user) rows
             = map (room_user_entry user_id_req) rows).
  { intros rows. apply map_ext. intros row. unfold room_user_entry. cbn.
    destruct (RoomUserRow.user_id row =? user_id_req); reflexivity. }
  destruct plan as [|[|] plan]; try discriminate;
    unfold get_room_users, _get_room_users, sql_select_room_users;
    run_conn; cbn; rewrite E; reflexivity.
Qed.

(** X1.  In every reachable state, [create_room] whose statement does not
    fail returns an id that no stored room has; afterwards that id selects
    exactly one room, with the given live id, count 0 and status
    [Waiting]; it has no membership row; the rooms of other ids and the
    membership table are as before. *)
Theorem create_room_fresh_room d live_id plan :
  reachable d -> hd false plan = false ->
  exists id d',
    create_room live_id plan d = (Return id, d')
    /\ room_where_room_id d id = []
    /\ room_where_room_id d' id
       = [RoomRow.mk id live_id 0 (int_of_WaitRoomStatus Waiting)]
    /\ (forall other, other <> id ->
          room_where_room_id d' other = room_where_room_id d other)
    /\ room_user d' = room_user d
    /\ room_user_count d' id = 0.
Proof.
  intros R Hplan. pose proof (reachable_store_invariant d R) as I.
  exists (auto_increment d). eexists.
  split; [now apply create_room_succeeds|].
  assert (N : room_where_room_id d (auto_increment d) = []).
  { apply room_where_room_id_nil. intros r Hr.
    pose proof (inv_fresh d I r Hr). lia. }
  split; [exact N|]. split.
  { rewrite room_where_room_id_insert_room, N, Z.eqb_refl. reflexivity. }
  split.
  { intros other Hne. rewrite room_where_room_id_insert_room.
    destruct (Z.eqb_spec (auto_increment d) other) as [E|_]; [congruence|].
    apply app_nil_r. }
  split; [reflexivity|].
  rewrite (room_user_count_room _ (room d) _ _ (auto_increment d)).
  apply (room_user_count_fresh d). apply (inv_member d I).
Qed.

Lemma create_room_fresh_room_witness :
  exists id d',
    create_room 200 [] db_full_room = (Return id, d')
    /\ room_where_room_id db_full_room id = []
    /\ room_where_room_id d' id
       = [RoomRow.mk id 200 0 (int_of_WaitRoomStatus Waiting)]
    /\ (forall other, other <> id ->
          room_where_room_id d' other = room_where_room_id db_full_room other)
    /\ room_user d' = room_user db_full_room
    /\ room_user_count d' id = 0.
Proof.
  apply (create_room_fresh_room db_full_room 200 []).
  - exact reachable_db_full_room.
  - reflexivity.
Defined.

(** X2.  A room just created is seen by the read operations: its status is
    [Waiting], it is the last entry of the listing for its live id with
    count 0 and capacity 4, and it has no users. *)
Theorem create_room_then_read d live_id id d' :
  reachable d ->
  create_room live_id [] d = (Return id, d') ->
  get_room_status id [] d' = (Return (RoomStatus.mk id Waiting), d')
  /\ (exists before,
        get_rooms_by_live_id live_id [] d = (Return before, d)
        /\ get_rooms_by_live_id live_id [] d'
           = (Return (before ++ [RoomInfo.mk id live_id 0 4]), d'))
  /\ (forall user_id_req,
        get_room_users id user_id_req [] d' = (Return [], d')).
Proof.
  intros R C. pose proof (reachable_store_invariant d R) as I.
  rewrite create_room_succeeds in C by reflexivity.
  injection C as <- <-.
  assert (N : room_where_room_id d (auto_increment d) = []).
  { apply room_where_room_id_nil. intros r Hr.
    pose proof (inv_fresh d I r Hr). lia. }
  split.
  { rewrite get_room_status_runs by reflexivity.
    rewrite room_where_room_id_insert_room, N, Z.eqb_refl. reflexivity. }
  split.
  { exists (map RoomInfo.from_orm (room_where_live_id d live_id)).
    split; [now apply get_rooms_by_live_id_runs|].
    rewrite get_rooms_by_live_id_runs by reflexivity. do 2 f_equal.
    unfold room_where_live_id. cbn [room]. rewrite filter_app. cbn.
    rewrite Z.eqb_refl, map_app. reflexivity. }
  intros req. rewrite get_room_users_runs by reflexivity. do 2 f_equal.
  assert (Z0 : room_user_count d (auto_increment d) = 0).
  { apply room_user_count_fresh. apply (inv_member d I). }
  unfold room_user_count in Z0.
  change (room_user_where_room_id
            (mkDB (room d ++ [RoomRow.mk (auto_increment d) live_id 0 1])
                  (room_user d) (auto_increment d + 1)) (auto_increment d))
    with (room_user_where_room_id d (auto_increment d)).
  destruct (room_user_where_room_id d (auto_increment d)); [reflexivity|].
  cbn in Z0. lia.
Qed.

Lemma create_room_then_read_witness :
  get_room_status 1 [] db_one_room
  = (Return (RoomStatus.mk 1 Waiting), db_one_room)
  /\ (exists before,
        get_rooms_by_live_id 100 [] empty_db = (Return before, empty_db)
        /\ get_rooms_by_live_id 100 [] db_one_room
           = (Return (before ++ [RoomInfo.mk 1 100 0 4]), db_one_room))
  /\ (forall user_id_req,
        get_room_users 1 user_id_req [] db_one_room
        = (Return [], db_one_room)).
Proof.
  apply (create_room_then_read empty_db 100 1 db_one_room).
  - exact reachable_empty.
  - reflexivity.
Defined.



(** The rooms of one live id are rooms of the table: their ids are
    distinct when the ids of the table are. *)
Lemma room_where_live_id_ids_distinct d live_id :
  room_id_unique d ->
  NoDup (map RoomRow.room_id (room_where_live_id d live_id)).
Proof.
  unfold room_id_unique, room_where_live_id.
  induction (room d) as [|r rooms IH]; cbn; intros U; [constructor|].
  apply NoDup_cons_iff in U. destruct U as [Hfresh U].
  destruct (RoomRow.live_id r =? live_id); cbn; [|now apply IH].
  apply NoDup_cons; [|now apply IH].
  intros Hin. apply Hfresh. apply in_map_iff in Hin.
  destruct Hin as [r0 [E H0]]. apply filter_In in H0.
  rewrite <- E. apply in_map. tauto.
Qed.

(** X4.  In every reachable state, failures included, the listing of
    [get_rooms_by_live_id] shows no room id twice, and every entry has a
    count between 0 and its capacity. *)
Theorem get_rooms_by_live_id_listing_wellformed d live_id infos :
  reachable d ->
  get_rooms_by_live_id live_id [] d = (Return infos, d) ->
  NoDup (map RoomInfo.room_id infos)
  /\ (forall ri, In ri infos ->
        0 <= RoomInfo.joined_user_count ri <= RoomInfo.max_user_count ri).
Proof.
  intros R G. pose proof (reachable_store_invariant d R) as I.
  rewrite get_rooms_by_live_id_runs in G by reflexivity.
  injection G as <-. split.
  - rewrite map_map.
    change (map (fun x => RoomInfo.room_id (RoomInfo.from_orm x))
                (room_where_live_id d live_id))
      with (map RoomRow.room_id (room_where_live_id d live_id)).
    apply room_where_live_id_ids_distinct. exact (inv_unique d I).
  - intros ri Hri. apply in_map_iff in Hri. destruct Hri as [r [<- Hr]].
    apply filter_In in Hr. destruct Hr as [Hr _].
    exact (inv_count d I r Hr).
Qed.

Lemma get_rooms_by_live_id_listing_wellformed_witness :
  NoDup (map RoomInfo.room_id [RoomInfo.mk 1 100 4 4])
  /\ (forall ri, In ri [RoomInfo.mk 1 100 4 4] ->
        0 <= RoomInfo.joined_user_count ri <= RoomInfo.max_user_count ri).
Proof.
  apply (get_rooms_by_live_id_listing_wellformed db_full_room 100).
  - exact reachable_db_full_room.
  - reflexivity.
Defined.

(** X5.  [get_room_users] whose statement does not fail raises nothing,
    leaves the store as it is, and returns one entry per membership row of
    the room, with the row's user id, difficulty and host flag; [is_me] is
    set on exactly the entries of the requesting user.  A room id without
    rows, stored or not, gives the empty list. *)
Theorem get_room_users_entries d room_id user_id_req plan :
  hd false plan = false ->
  exists users,
    get_room_users room_id user_id_req plan d = (Return users, d)
    /\ Z.of_nat (length users) = room_user_count d room_id
    /\ (forall u, In u users <->
          exists row, In row (room_user d)
                      /\ RoomUserRow.room_id row = room_id
                      /\ u = RoomUser.mk room_id (RoomUserRow.user_id row)
                               (RoomUserRow.live_difficulty row)
                               (RoomUserRow.user_id row =? user_id_req)
                               (RoomUserRow.is_host row))
    /\ (forall u, In u users ->
          RoomUser.is_me u = true <-> RoomUser.user_id u = user_id_req).
Proof.
  intros Hplan.
  exists (map (room_user_entry user_id_req)
              (room_user_where_room_id d room_id)).
  split; [now apply get_room_users_runs|].
  split; [unfold room_user_count; now rewrite length_map|].
  assert (Hiff : forall u,
            In u (map (room_user_entry user_id_req)
                      (room_user_where_room_id d room_id)) <->
            exists row, In row (room_user d)
                        /\ RoomUserRow.room_id row = room_id
                        /\ u = RoomUser.mk room_id (RoomUserRow.user_id row)
                                 (RoomUserRow.live_difficulty row)
                                 (RoomUserRow.user_id row =? user_id_req)
                                 (RoomUserRow.is_host row)).
  { intros u. rewrite in_map_iff. unfold room_user_where_room_id. split.
    - intros [row [<- Hrow]]. apply filter_In in Hrow.
      destruct Hrow as [Hrow E]. apply Z.eqb_eq in E. exists row.
      repeat split; auto. unfold room_user_entry. now rewrite E.
    - intros [row (Hrow & E & ->)]. exists row. split.
      + unfold room_user_entry. now rewrite E.
      + apply filter_In. split; [exact Hrow | now apply Z.eqb_eq]. }
  split; [exact Hiff|].
  intros u Hu. apply Hiff in Hu. destruct Hu as [row (_ & _ & ->)]. cbn.
  apply Z.eqb_eq.
Qed.

Lemma get_room_users_entries_witness :
  exists users,
    get_room_users 1 3 [] db_full_room = (Return users, db_full_room)
    /\ Z.of_nat (length users) = room_user_count db_full_room 1
    /\ (forall u, In u users <->
          exists row, In row (room_user db_full_room)
                      /\ RoomUserRow.room_id row = 1
                      /\ u = RoomUser.mk 1 (RoomUserRow.user_id row)
                               (RoomUserRow.live_difficulty row)
                               (RoomUserRow.user_id row =? 3)
                               (RoomUserRow.is_host row))
    /\ (forall u, In u users ->
          RoomUser.is_me u = true <-> RoomUser.user_id u = 3).
Proof.
  apply (get_room_users_entries db_full_room 1 3 []). reflexivity.
Defined.

Lemma key_filter_length (l : list RoomUserRow.t) (room_id user_id : Z) :
  NoDup (map room_user_key l) ->
  length (filter (fun u => (RoomUserRow.room_id u =? room_id)
                           && (RoomUserRow.user_id u =? user_id)) l)
  = if existsb (fun u => (RoomUserRow.room_id u =? room_id)
                         && (RoomUserRow.user_id u =? user_id)) l
    then 1%nat else 0%nat.
Proof.
  induction l as [|a l IH]; intros H; [reflexivity|].
  cbn in H. inversion H as [|x xs Hnotin Hnd]; subst. cbn.
  destruct ((RoomUserRow.room_id a =? room_id)
            && (RoomUserRow.user_id a =? user_id)) eqn:E; cbn.
  - f_equal. apply andb_prop in E. destruct E as [E1 E2].
    apply Z.eqb_eq in E1, E2.
    assert (N : forall b, In b l ->
                  (RoomUserRow.room_id b =? room_id)
                  && (RoomUserRow.user_id b =? user_id) = false).
    { intros b Hb.
      destruct ((RoomUserRow.room_id b =? room_id)
                && (RoomUserRow.user_id b =? user_id)) eqn:Eb;
        [|reflexivity].
      exfalso. apply Hnotin. apply andb_prop in Eb. destruct Eb as [B1 B2].
      apply Z.eqb_eq in B1, B2. apply in_map_iff. exists b.
      split; [|exact Hb]. unfold room_user_key. congruence. }
    clear IH Hnotin Hnd H. induction l as [|b l IH]; [reflexivity|].
    cbn. rewrite (N b (or_introl eq_refl)). apply IH.
    intros c Hc. apply N. now right.
  - now apply IH.
Qed.

(** X6.  In every reachable state, failures included, the answer of
    [get_room_users] has [is_me] set on exactly one entry when the
    requesting user has a membership row in the room, and on none
    otherwise. *)
Theorem get_room_users_is_me_once d room_id user_id_req users :
  reachable d ->
  get_room_users room_id user_id_req [] d = (Return users, d) ->
  length (filter RoomUser.is_me users)
  = if room_user_has_key d room_id user_id_req then 1%nat else 0%nat.
Proof.
  intros R G. rewrite get_room_users_runs in G by reflexivity.
  injection G as <-.
  pose proof (key_filter_length (room_user d) room_id user_id_req
                (reachable_room_user_key_unique_step d R)) as L.
  unfold room_user_has_key. rewrite <- L.
  unfold room_user_where_room_id. clear L.
  induction (room_user d) as [|a l IH]; [reflexivity|]. cbn.
  destruct (RoomUserRow.room_id a =? room_id); cbn; [|exact IH].
  destruct (RoomUserRow.user_id a =? user_id_req); cbn; now rewrite IH.
Qed.

Lemma get_room_users_is_me_once_witness :
  length (filter RoomUser.is_me
            [RoomUser.mk 1 1 1 false false; RoomUser.mk 1 2 1 false false;
             RoomUser.mk 1 3 1 true false; RoomUser.mk 1 4 1 false false])
  = if room_user_has_key db_full_room 1 3 then 1%nat else 0%nat.
Proof.
  apply (get_room_users_is_me_once db_full_room 1 3).
  - exact reachable_db_full_room.
  - reflexivity.
Defined.

(** ** Further properties: answers of [join_room] and invariants *)


(** X10.  In every reachable state, failures included, room ids are
    pairwise distinct and below the next generated id, so that the id of a
    stored room selects that room alone. *)
Theorem reachable_room_ids_distinct d :
  reachable d ->
  NoDup (map RoomRow.room_id (room d))
  /\ (forall r, In r (room d) ->
        RoomRow.room_id r < auto_increment d
        /\ room_where_room_id d (RoomRow.room_id r) = [r]).
Proof.
  intros R. pose proof (reachable_store_invariant d R) as I.
  split; [exact (inv_unique d I)|].
  intros r Hr. split; [exact (inv_fresh d I r Hr)|].
  apply room_where_room_id_unique; [exact (inv_unique d I) | exact Hr].
Qed.

Lemma reachable_room_ids_distinct_witness :
  NoDup (map RoomRow.room_id (room db_full_room))
  /\ (forall r, In r (room db_full_room) ->
        RoomRow.room_id r < auto_increment db_full_room
        /\ room_where_room_id db_full_room (RoomRow.room_id r) = [r]).
Proof.
  exact (reachable_room_ids_distinct db_full_room reachable_db_full_room).
Defined.

Lemma same_room_id_same_row d r r0 :
  room_id_unique d -> In r (room d) -> In r0 (room d) ->
  RoomRow.room_id r0 = RoomRow.room_id r -> r0 = r.
Proof.
  intros U Hr Hr0 E.
  assert (Hin : In r0 (room_where_room_id d (RoomRow.room_id r))).
  { apply filter_In. split; [exact Hr0 | now apply Z.eqb_eq]. }
  rewrite (room_where_room_id_unique d r U Hr) in Hin.
  destruct Hin as [<-|[]]. reflexivity.
Qed.

Lemma step_room_origin d d' r' :
  step_shape d d' -> In r' (room d') ->
  (exists r0, In r0 (room d)
              /\ RoomRow.room_id r' = RoomRow.room_id r0
              /\ RoomRow.live_id r' = RoomRow.live_id r0
              /\ (RoomRow.status r' = RoomRow.status r0
                  \/ RoomRow.status r' = int_of_WaitRoomStatus LiveStart))
  \/ (RoomRow.room_id r' = auto_increment d
      /\ RoomRow.status r' = int_of_WaitRoomStatus Waiting).
Proof.
  intros S Hr'.
  destruct S as [|live_id|u r E Hlt K|u r E Hlt K|room_id];
    cbn [room db_row_only db_row_and_count db_status] in Hr'.
  - left. exists r'. auto.
  - apply in_app_or in Hr'. destruct Hr' as [Hr'|[<-|[]]].
    + left. exists r'. auto.
    + right. split; reflexivity.
  - left. exists r'. auto.
  - left. apply update_where_In in Hr'.
    destruct Hr' as [r0 [H0 [[_ ->]|[_ ->]]]]; exists r0; cbn; auto.
  - left. apply update_where_In in Hr'.
    destruct Hr' as [r0 [H0 [[_ ->]|[_ ->]]]]; exists r0; cbn; auto.
Qed.

(** X11.  No operation writes [Dissolution] or takes a started room back:
    in every reachable state the status of a room is [Waiting] or
    [LiveStart], and a room whose status is [LiveStart] keeps its live id
    and the status [LiveStart] through every call, whatever fails. *)
Theorem LiveStart_is_kept d r c plan :
  reachable d -> In r (room d) ->
  (WaitRoomStatus_of_int (RoomRow.status r) = Some Waiting
   \/ WaitRoomStatus_of_int (RoomRow.status r) = Some LiveStart)
  /\ (RoomRow.status r = int_of_WaitRoomStatus LiveStart ->
      forall r', In r' (room (run c plan d)) ->
        RoomRow.room_id r' = RoomRow.room_id r ->
        RoomRow.status r' = int_of_WaitRoomStatus LiveStart
        /\ RoomRow.live_id r' = RoomRow.live_id r).
Proof.
  intros R Hr. pose proof (reachable_store_invariant d R) as I. split.
  - destruct (inv_status d I r Hr) as [S|S]; rewrite S; auto.
  - intros S r' Hr' E.
    destruct (step_room_origin d _ r' (run_shape c plan d) Hr')
      as [(r0 & H0 & E0 & L0 & S0)|[Efresh _]].
    + assert (r0 = r).
      { apply (same_room_id_same_row d); auto;
          [exact (inv_unique d I) | congruence]. }
      subst r0. split; [|exact L0]. destruct S0 as [S0|S0]; congruence.
    + pose proof (inv_fresh d I r Hr). lia.
Qed.

Lemma LiveStart_is_kept_witness :
  (WaitRoomStatus_of_int 2 = Some Waiting
   \/ WaitRoomStatus_of_int 2 = Some LiveStart)
  /\ (2 = int_of_WaitRoomStatus LiveStart ->
      forall r',
        In r' (room (run (call_join_room 9 1 hard false) []
                         (db_status db_one_room 1 2))) ->
        RoomRow.room_id r' = 1 ->
        RoomRow.status r' = int_of_WaitRoomStatus LiveStart
        /\ RoomRow.live_id r' = 100).
Proof.
  apply (LiveStart_is_kept (db_status db_one_room 1 2)
           (RoomRow.mk 1 100 0 2) (call_join_room 9 1 hard false) []).
  - change (db_status db_one_room 1 2)
      with (run (call_start_room 1) [] db_one_room).
    apply reachable_run, reachable_db_one_room.
  - left. reflexivity.
Defined.

Lemma reachable_without_failure_db_full_room :
  reachable_without_failure db_full_room.
Proof.
  change db_full_room
    with (run (call_join_room 4 1 normal false) []
           (run (call_join_room 3 1 normal false) []
             (run (call_join_room 2 1 normal false) []
               (run (call_join_room 1 1 normal false) []
                 (run (call_create_room 100) [] empty_db))))).
  repeat apply rwf_run. apply rwf_empty.
Defined.

(** X12.  Along runs of the operations in which no statement fails, the
    count of every room is the number of its membership rows. *)
Theorem count_is_number_of_rows_without_failure d r :
  reachable_without_failure d -> In r (room d) ->
  RoomRow.joined_user_count r = room_user_count d (RoomRow.room_id r).
Proof.
  intros R Hr. exact (count_consistent_without_failure d R r Hr).
Qed.

Lemma count_is_number_of_rows_without_failure_witness :
  RoomRow.joined_user_count (RoomRow.mk 1 100 4 1)
  = room_user_count db_full_room (RoomRow.room_id (RoomRow.mk 1 100 4 1)).
Proof.
  apply (count_is_number_of_rows_without_failure db_full_room
           (RoomRow.mk 1 100 4 1)).
  - exact reachable_without_failure_db_full_room.
  - left. reflexivity.
Defined.

Lemma room_user_count_nonneg d room_id : 0 <= room_user_count d room_id.
Proof. unfold room_user_count. lia. Qed.

Lemma count_le_rows_step d d' :
  step_shape d d' ->
  (forall r, In r (room d) ->
     RoomRow.joined_user_count r <= room_user_count d (RoomRow.room_id r)) ->
  forall r', In r' (room d') ->
    RoomRow.joined_user_count r' <= room_user_count d' (RoomRow.room_id r').
Proof.
  intros S P r' Hr'.
  destruct S as [|live_id|u r E Hlt K|u r E Hlt K|room_id];
    cbn [room db_row_only db_row_and_count db_status] in Hr'.
  - now apply P.
  - rewrite (room_user_count_room _ (room d) _ _ (auto_increment d)).
    change (room_user_count
              (mkDB (room d) (room_user d) (auto_increment d))
              (RoomRow.room_id r'))
      with (room_user_count d (RoomRow.room_id r')).
    apply in_app_or in Hr'. destruct Hr' as [Hr'|[<-|[]]].
    + now apply P.
    + cbn. apply room_user_count_nonneg.
  - unfold db_row_only. rewrite room_user_count_insert.
    change (room_user_count
              (mkDB (room d) (room_user d) (auto_increment d))
              (RoomRow.room_id r'))
      with (room_user_count d (RoomRow.room_id r')).
    specialize (P r' Hr').
    destruct (RoomUserRow.room_id u =? RoomRow.room_id r'); lia.
  - unfold db_row_and_count. rewrite room_user_count_insert.
    rewrite (room_user_count_room _ (room d) _ _ (auto_increment d)).
    change (room_user_count
              (mkDB (room d) (room_user d) (auto_increment d))
              (RoomRow.room_id r'))
      with (room_user_count d (RoomRow.room_id r')).
    apply update_where_In in Hr'.
    destruct Hr' as [r0 [H0 [[Hid ->]|[Hid ->]]]].
    + cbn [set_joined_user_count RoomRow.joined_user_count RoomRow.room_id].
      rewrite Hid, Z.eqb_refl.
      assert (Hin : In r0 (room_where_room_id d (RoomUserRow.room_id u))).
      { apply filter_In. split; [exact H0 | now apply Z.eqb_eq]. }
      rewrite E in Hin. destruct Hin as [<-|[]].
      specialize (P r H0). rewrite Hid in P. lia.
    + specialize (P r0 H0).
      destruct (RoomUserRow.room_id u =? RoomRow.room_id r0); lia.
  - apply update_where_In in Hr'.
    destruct Hr' as [r0 [H0 [[Hid ->]|[Hid ->]]]];
      cbn [set_status RoomRow.joined_user_count RoomRow.room_id];
      exact (P r0 H0).
Qed.

(** X13.  In every reachable state, failures included, the count of a room
    is at most the number of its membership rows: a failure can lose an
    increment of the count, never a row. *)
Theorem count_at_most_number_of_rows d r :
  reachable d -> In r (room d) ->
  RoomRow.joined_user_count r <= room_user_count d (RoomRow.room_id r).
Proof.
  intros R. revert r. induction R as [|c plan d _ IH]; [intros r []|].
  exact (count_le_rows_step d _ (run_shape c plan d) IH).
Qed.

Lemma count_at_most_number_of_rows_witness :
  RoomRow.joined_user_count (RoomRow.mk 1 100 0 1)
  <= room_user_count db_partial (RoomRow.room_id (RoomRow.mk 1 100 0 1)).
Proof.
  apply (count_at_most_number_of_rows db_partial (RoomRow.mk 1 100 0 1)).
  - exact reachable_db_partial.
  - left. reflexivity.
Defined.

(** X14.  [join_room] never adds, removes or reorders a room and never
    changes an id, a live id or a status: under every plan and on every
    store these and the id generator are as before, and the membership
    table is as before or has the one row of this call appended. *)
Theorem join_room_frame user_id room_id ld is_host plan d :
  let d' := snd (join_room user_id room_id ld is_host plan d) in
  map RoomRow.room_id (room d') = map RoomRow.room_id (room d)
  /\ map RoomRow.live_id (room d') = map RoomRow.live_id (room d)
  /\ map RoomRow.status (room d') = map RoomRow.status (room d)
  /\ auto_increment d' = auto_increment d
  /\ (room_user d' = room_user d
      \/ room_user d'
         = room_user d
           ++ [RoomUserRow.mk room_id user_id (int_of_LiveDifficulty ld)
                 is_host]).
Proof.
  assert (U : forall n l,
            map RoomRow.live_id (update_where (set_joined_user_count n)
                                   room_id l) = map RoomRow.live_id l
            /\ map RoomRow.status (update_where (set_joined_user_count n)
                                     room_id l) = map RoomRow.status l).
  { intros n l. unfold update_where. rewrite !map_map.
    split; apply map_ext; intros a;
      destruct (RoomRow.room_id a =? room_id); reflexivity. }
  cbv zeta.
  destruct (join_room_state user_id room_id ld is_host plan d)
    as [->|(r & E & Hlt & K & [[_ ->]|[_ ->]])].
  - repeat split; auto.
  - repeat split; auto.
  - unfold db_row_and_count, new_room_user.
    cbn [room room_user auto_increment RoomUserRow.room_id].
    destruct (U (RoomRow.joined_user_count r + 1) (room d)) as [U1 U2].
    split; [now apply update_where_ids|]. repeat split; auto.
Qed.

(** ** Further properties: how the operations compose *)

(** Answer and store of [join_room] together, on every store and under
    every plan. *)
Lemma join_room_cases user_id room_id ld is_host plan d :
  let u := new_room_user user_id room_id ld is_host in
  (exists res, join_room user_id room_id ld is_host plan d = (Return res, d)
               /\ res <> Ok)
  \/ exists r,
       room_where_room_id d room_id = [r]
       /\ RoomRow.joined_user_count r < max_user_count
       /\ room_user_has_key d room_id user_id = false
       /\ ((~ no_failure 4 plan /\
            join_room user_id room_id ld is_host plan d
            = (Return OhterError, db_row_only d u))
           \/ (no_failure 4 plan /\
               join_room user_id room_id ld is_host plan d
               = (Return Ok,
                  db_row_and_count d u (RoomRow.joined_user_count r + 1)))).
Proof.
  intros u.
  destruct (room_where_room_id d room_id) as [|r [|r' rs]] eqn:E.
  - left. exists OhterError. split; [now apply join_room_no_room|discriminate].
  - destruct (Z.ltb_spec (RoomRow.joined_user_count r) max_user_count)
      as [Hlt|Hge].
    + destruct (join_room_below_cases user_id room_id ld is_host d r E Hlt plan)
        as [H|[(K & F & H)|(K & F & H)]].
      * left. exists OhterError. split; [exact H | discriminate].
      * right. exists r. repeat split; auto.
      * right. exists r. repeat split; auto.
    + left. destruct plan as [|[|] plan].
      * exists RoomFull. split; [|discriminate].
        apply (join_room_full _ _ _ _ _ _ r); auto. lia.
      * exists OhterError. split; [reflexivity | discriminate].
      * exists RoomFull. split; [|discriminate].
        apply (join_room_full _ _ _ _ _ _ r); auto. lia.
  - left. exists OhterError. split; [|discriminate].
    now apply (join_room_many_rooms _ _ _ _ _ _ r r' rs).
Qed.


Lemma join_room_answer_correct user_id room_id ld is_host plan d :
  fst (join_room user_id room_id ld is_host plan d)
  = Return (join_room_answer (room_where_room_id d room_id)
              (room_user_has_key d room_id user_id) plan).
Proof.
  destruct (room_where_room_id d room_id) as [|r [|r' rs]] eqn:E.
  - rewrite join_room_no_room by exact E.
    destruct plan as [|[|] plan]; reflexivity.
  - unfold join_room_answer.
    destruct (Z.geb_spec (RoomRow.joined_user_count r) max_user_count)
      as [Hge|Hlt].
    + destruct plan as [|[|] plan];
        [rewrite (join_room_full _ _ _ _ _ _ r) by (auto; lia)
        | rewrite join_room_first_fails
        | rewrite (join_room_full _ _ _ _ _ _ r) by (auto; lia)];
        reflexivity.
    + destruct (room_user_has_key d room_id user_id) eqn:K.
      * rewrite (join_room_duplicate _ _ _ _ d r E Hlt plan K).
        destruct plan as [|[|] [|[|] plan]]; reflexivity.
      * destruct plan as [|[|] [|[|] [|[|] [|[|] plan]]]]; cbn [nth fst].
        all: try (rewrite join_room_first_fails; reflexivity).
        all: try (rewrite (join_room_insert_fails _ _ _ _ d r E Hlt);
                  reflexivity).
        all: try (rewrite (join_room_succeeds _ _ _ _ d r E Hlt _ K);
                  reflexivity).
        all: rewrite (join_room_count_fails _ _ _ _ d r E Hlt _ K);
          [reflexivity | eauto].
  - rewrite (join_room_many_rooms _ _ _ _ _ _ r r' rs) by exact E.
    destruct plan as [|[|] plan]; reflexivity.
Qed.

(** X15.  A user who already has a membership row in the room is never
    joined again: on every store and under every plan [join_room] then
    leaves the store as it is and its answer is not [Ok]. *)
Theorem join_room_member_again user_id room_id ld is_host plan d :
  room_user_has_key d room_id user_id = true ->
  snd (join_room user_id room_id ld is_host plan d) = d
  /\ fst (join_room user_id room_id ld is_host plan d) <> Return Ok.
Proof.
  intros K.
  destruct (join_room_cases user_id room_id ld is_host plan d)
    as [(res & H & N)|(r & _ & _ & K' & _)]; [|congruence].
  rewrite H. split; [reflexivity|]. cbn. congruence.
Qed.

Lemma join_room_member_again_witness :
  snd (join_room 1 1 normal false [] db_partial) = db_partial
  /\ fst (join_room 1 1 normal false [] db_partial) <> Return Ok.
Proof.
  apply (join_room_member_again 1 1 normal false [] db_partial).
  reflexivity.
Defined.






Lemma join_room_answer_set_status rows status member plan :
  join_room_answer (map (set_status status) rows) member plan
  = join_room_answer rows member plan.
Proof. destruct rows as [|r [|r' rs]]; reflexivity. Qed.

(** X18.  [join_room] does not look at the status of the room: after a
    [start_room] on any id, failed or not, it gives the answer it would
    have given before, under every plan.  A started room below capacity
    still accepts a join. *)
Theorem join_room_ignores_start user_id room_id ld is_host plan
  started plan' d :
  fst (join_room user_id room_id ld is_host plan
         (snd (start_room started plan' d)))
  = fst (join_room user_id room_id ld is_host plan d).
Proof.
  assert (S : snd (start_room started plan' d) = d
              \/ snd (start_room started plan' d)
                 = db_status d started (int_of_WaitRoomStatus LiveStart)).
  { destruct plan' as [|[|] plan'];
      [right; now rewrite start_room_succeeds
      | now left
      | right; now rewrite start_room_succeeds]. }
  destruct S as [->| ->]; [reflexivity|].
  rewrite !join_room_answer_correct. f_equal.
  change (room_user_has_key
            (db_status d started (int_of_WaitRoomStatus LiveStart))
            room_id user_id)
    with (room_user_has_key d room_id user_id).
  destruct (Z.eq_dec room_id started) as [->|N].
  - rewrite room_where_room_id_db_status.
    apply join_room_answer_set_status.
  - now rewrite room_where_room_id_db_status_other.
Qed.

Lemma join_room_room user_id room_id ld is_host plan d :
  room (snd (join_room user_id room_id ld is_host plan d))
  = match fst (join_room user_id room_id ld is_host plan d),
          room_where_room_id d room_id with
    | Return Ok, [r] =>
        update_where
          (set_joined_user_count (RoomRow.joined_user_count r + 1))
          room_id (room d)
    | _, _ => room d
    end.
Proof.
  destruct (join_room_cases user_id room_id ld is_host plan d)
    as [(res & H & N)|(r & E & Hlt & K & [[_ H]|[_ H]])];
    rewrite H; cbn [fst snd].
  - destruct res; try reflexivity. congruence.
  - reflexivity.
  - rewrite E. reflexivity.
Qed.

(** X19.  Difficulty and host flag are stored and nothing else: under the
    same plan and on the same store, [join_room] gives the same answer and
    leaves the same table of rooms whatever the difficulty and the host
    flag are; a second host is accepted like any user. *)
Theorem join_room_ignores_difficulty_and_host user_id room_id plan d
  ld is_host ld' is_host' :
  fst (join_room user_id room_id ld is_host plan d)
  = fst (join_room user_id room_id ld' is_host' plan d)
  /\ room (snd (join_room user_id room_id ld is_host plan d))
     = room (snd (join_room user_id room_id ld' is_host' plan d)).
Proof.
  assert (A : fst (join_room user_id room_id ld is_host plan d)
              = fst (join_room user_id room_id ld' is_host' plan d)).
  { now rewrite !join_room_answer_correct. }
  split; [exact A|]. rewrite !join_room_room, A. reflexivity.
Qed.

(** X20.  Joins one after the other, nothing failing: from a store in
    which the id selects one room with a count within the capacity, after
    any list of users has tried to join, the id still selects one room,
    with the same live id and status; its count is the old count plus the
    number of [Ok] answers, and it is within the capacity. *)
Theorem join_each_counts users room_id d r :
  room_where_room_id d room_id = [r] ->
  RoomRow.joined_user_count r <= max_user_count ->
  exists r',
    room_where_room_id (snd (join_each users room_id d)) room_id = [r']
    /\ RoomRow.joined_user_count r'
       = RoomRow.joined_user_count r
         + Z.of_nat (length (filter is_Ok (fst (join_each users room_id d))))
    /\ RoomRow.joined_user_count r' <= max_user_count
    /\ RoomRow.live_id r' = RoomRow.live_id r
    /\ RoomRow.status r' = RoomRow.status r
    /\ length (fst (join_each users room_id d)) = length users.
Proof.
  revert d r. induction users as [|user_id users IH]; intros d r E Hle.
  - exists r. cbn. repeat split; auto. lia.
  - cbn [join_each].
    destruct (join_room_cases user_id room_id normal false [] d)
      as [(res & H & N)|(r0 & E0 & Hlt & K & [[F _]|[_ H]])].
    + rewrite H. destruct (IH d r E Hle) as (r' & E' & C' & B' & L' & S' & N').
      destruct (join_each users room_id d) as [rest d''] eqn:J.
      cbn [fst snd] in *. exists r'.
      assert (O : is_Ok (Return res) = false)
        by (destruct res; try reflexivity; congruence).
      cbn [filter]. rewrite O. cbn [length]. repeat split; auto.
    + exfalso. apply F. reflexivity.
    + rewrite H. rewrite E in E0. injection E0 as <-.
      set (d1 := db_row_and_count d
                   (new_room_user user_id room_id normal false)
                   (RoomRow.joined_user_count r + 1)) in *.
      assert (E1 : room_where_room_id d1 room_id
                   = [set_joined_user_count
                        (RoomRow.joined_user_count r + 1) r]).
      { unfold d1.
        change room_id
          with (RoomUserRow.room_id
                  (new_room_user user_id room_id normal false)) at 2.
        rewrite room_where_room_id_db_row_and_count.
        change (RoomUserRow.room_id
                  (new_room_user user_id room_id normal false))
          with room_id.
        now rewrite E. }
      destruct (IH d1 _ E1) as (r' & E' & C' & B' & L' & S' & N').
      { cbn. lia. }
      destruct (join_each users room_id d1) as [rest d''] eqn:J.
      cbn [fst snd] in *. exists r'. cbn [filter is_Ok length].
      cbn in C'. repeat split; auto. lia.
Qed.

Lemma join_each_counts_witness :
  exists r',
    room_where_room_id
      (snd (join_each [1; 2; 3; 4; 5; 6] 1 db_one_room)) 1 = [r']
    /\ RoomRow.joined_user_count r'
       = RoomRow.joined_user_count (RoomRow.mk 1 100 0 1)
         + Z.of_nat (length (filter is_Ok
                               (fst (join_each [1; 2; 3; 4; 5; 6] 1
                                       db_one_room))))
    /\ RoomRow.joined_user_count r' <= max_user_count
    /\ RoomRow.live_id r' = RoomRow.live_id (RoomRow.mk 1 100 0 1)
    /\ RoomRow.status r' = RoomRow.status (RoomRow.mk 1 100 0 1)
    /\ length (fst (join_each [1; 2; 3; 4; 5; 6] 1 db_one_room))
       = length [1; 2; 3; 4; 5; 6].
Proof.
  apply (join_each_counts [1; 2; 3; 4; 5; 6] 1 db_one_room
           (RoomRow.mk 1 100 0 1)).
  - reflexivity.
  - discriminate.
Defined.

Lemma step_monotone d d' :
  step_shape d d' ->
  (exists l, room_user d' = room_user d ++ l /\ (length l <= 1)%nat)
  /\ (exists l, map RoomRow.room_id (room d')
                = map RoomRow.room_id (room d) ++ l
                /\ (length l <= 1)%nat)
  /\ (forall r, In r (room d) ->
        exists r', In r' (room d')
                   /\ RoomRow.room_id r' = RoomRow.room_id r
                   /\ RoomRow.live_id r' = RoomRow.live_id r
                   /\ RoomRow.joined_user_count r
                      <= RoomRow.joined_user_count r')
  /\ auto_increment d <= auto_increment d'.
Proof.
  intros S.
  destruct S as [|live_id|u r E Hlt K|u r E Hlt K|room_id];
    cbn [room room_user auto_increment db_row_only db_row_and_count
         db_status].
  - split; [exists []; split; [now rewrite app_nil_r | cbn; lia]|].
    split; [exists []; split; [now rewrite app_nil_r | cbn; lia]|].
    split; [|lia]. intros r Hr. exists r. repeat split; auto. lia.
  - split; [exists []; split; [now rewrite app_nil_r | cbn; lia]|].
    split; [exists [auto_increment d]; split;
            [now rewrite map_app | cbn; lia]|].
    split; [|lia]. intros r Hr. exists r.
    repeat split; auto; [apply in_or_app; now left | lia].
  - split; [exists [u]; split; [reflexivity | cbn; lia]|].
    split; [exists []; split; [now rewrite app_nil_r | cbn; lia]|].
    split; [|lia]. intros r0 Hr0. exists r0. repeat split; auto. lia.
  - split; [exists [u]; split; [reflexivity | cbn; lia]|].
    split; [exists []; split;
            [rewrite app_nil_r; now apply update_where_ids | cbn; lia]|].
    split; [|lia]. intros r0 Hr0.
    exists (if RoomRow.room_id r0 =? RoomUserRow.room_id u
            then set_joined_user_count (RoomRow.joined_user_count r + 1) r0
            else r0).
    split.
    { unfold update_where.
      apply (in_map (fun r1 =>
                       if RoomRow.room_id r1 =? RoomUserRow.room_id u
                       then set_joined_user_count
                              (RoomRow.joined_user_count r + 1) r1
                       else r1)). exact Hr0. }
    destruct (Z.eqb_spec (RoomRow.room_id r0) (RoomUserRow.room_id u))
      as [Hid|_]; cbn; repeat split; auto; [|lia].
    assert (Hin : In r0 (room_where_room_id d (RoomUserRow.room_id u))).
    { apply filter_In. split; [exact Hr0 | now apply Z.eqb_eq]. }
    rewrite E in Hin. destruct Hin as [<-|[]]. lia.
  - split; [exists []; split; [now rewrite app_nil_r | cbn; lia]|].
    split; [exists []; split;
            [rewrite app_nil_r; now apply update_where_ids | cbn; lia]|].
    split; [|lia]. intros r0 Hr0.
    exists (if RoomRow.room_id r0 =? room_id
            then set_status (int_of_WaitRoomStatus LiveStart) r0 else r0).
    split.
    { unfold update_where.
      apply (in_map (fun r1 =>
                       if RoomRow.room_id r1 =? room_id
                       then set_status (int_of_WaitRoomStatus LiveStart) r1
                       else r1)). exact Hr0. }
    destruct (RoomRow.room_id r0 =? room_id); cbn; repeat split; auto; lia.
Qed.

(** X21.  Nothing is ever deleted.  Through every call, under every plan
    and on every store: the membership table only grows at its end, by at
    most one row; the list of room ids only grows at its end, by at most
    one id; every stored room is still stored with its id and live id and
    a count that is not smaller; the id generator does not go back. *)
Theorem run_deletes_nothing c plan d :
  (exists l, room_user (run c plan d) = room_user d ++ l
             /\ (length l <= 1)%nat)
  /\ (exists l, map RoomRow.room_id (room (run c plan d))
                = map RoomRow.room_id (room d) ++ l
                /\ (length l <= 1)%nat)
  /\ (forall r, In r (room d) ->
        exists r', In r' (room (run c plan d))
                   /\ RoomRow.room_id r' = RoomRow.room_id r
                   /\ RoomRow.live_id r' = RoomRow.live_id r
                   /\ RoomRow.joined_user_count r
                      <= RoomRow.joined_user_count r')
  /\ auto_increment d <= auto_increment (run c plan d).
Proof. exact (step_monotone d _ (run_shape c plan d)). Qed.
